(** * gbt.ipynb: gradient boosted trees on molecular fingerprints

    A shallow embedding of the notebook's own functions (the five label
    transforms, [is_y_not_na], [smiles2fingerprint], [prepare_dataset],
    [compute_metrics], the training step, the checks after the filter and
    the run over one dataset) together with the properties stated about
    them.

    Conventions.
    - Python objects that are shared by reference ([pyg.data.Data] samples,
      data frames, fitted models) live in a heap indexed by locations; the
      notebook's functions are computations in a state-and-exception monad
      over that heap.
    - Floating point values are [spec_float]s.  Comparisons ([>], [<], [>=],
      [isnan]) are the IEEE ones of [SpecFloat] and are exact.  Arithmetic on
      counts (class weights, metric values) is carried out in [Q]: the
      value reported by the code is the rounding of that rational.
    - The libraries the notebook calls (rdkit, numpy's generator, catboost)
      are interfaces (type classes); the scikit-learn routines are written
      out from their standard definitions.
    - Tensors are values: the notebook applies no in-place tensor
      operation, so only the sample objects need identity. *)

From Stdlib Require Import ZArith QArith String Ascii List Lia.
From Stdlib Require Import Floats.SpecFloat.
From stdpp Require Import gmap strings list.

Local Open Scope Z_scope.
Local Open Scope nat_scope.
Local Open Scope string_scope.
Local Open Scope list_scope.

(** ** Exceptions and results *)

Inductive exn : Type :=
| IndexError | ValueError | RuntimeError | ArgumentError | TypeError
| CatBoostError.

Inductive result (A : Type) : Type :=
| Ok (a : A)
| Raise (e : exn).
Arguments Ok {A} a.
Arguments Raise {A} e.

Definition rbind {A B} (r : result A) (k : A → result B) : result B :=
  match r with Ok a => k a | Raise e => Raise e end.

Definition is_ok {A} (r : result A) : bool :=
  match r with Ok _ => true | Raise _ => false end.

Fixpoint rmap {A B} (f : A → result B) (l : list A) : result (list B) :=
  match l with
  | [] => Ok []
  | a :: l' => rbind (f a) (λ b, rbind (rmap f l') (λ bs, Ok (b :: bs)))
  end.

(** ** Floating point values *)

Module Float.

Definition float := spec_float.

Definition isnan (f : float) : bool :=
  match f with S754_nan => true | _ => false end.

(** binary32 constants (24-bit mantissa) *)
Definition f32_zero : float := S754_zero false.
Definition f32_one : float := S754_finite false 8388608 (-23).
Definition f32_3_5 : float := S754_finite false 14680064 (-22).

(** binary64 constants (53-bit mantissa): the doubles nearest to the
    decimal literals of the source *)
Definition f64_zero : float := S754_zero false.
Definition f64_one : float := S754_finite false 4503599627370496 (-52).
Definition f64_0_5 : float := S754_finite false 4503599627370496 (-53).
Definition f64_0_8 : float := S754_finite false 7205759403792794 (-53).
Definition f64_0_9 : float := S754_finite false 8106479329266893 (-53).

(** [x > y], [x < y], [x >= y], [x == y] *)
Definition gt (x y : float) : bool := SFltb y x.
Definition lt (x y : float) : bool := SFltb x y.
Definition ge (x y : float) : bool := SFleb y x.
Definition eqb (x y : float) : bool := SFeqb x y.

(** binary32 to binary64 (always exact) *)
Definition to_double (f : float) : float :=
  match f with
  | S754_finite s m e =>
      binary_normalize 53 1024 (cond_Zopp s (Zpos m)) e s
  | _ => f
  end.

(** a value that is exactly 0.0 or exactly 1.0 in binary32 *)
Definition is_binary32 (f : float) : Prop :=
  eqb f f32_zero = true ∨ eqb f f32_one = true.

(** a value that is exactly 0.0 or exactly 1.0 in binary64 *)
Definition is_binary64 (f : float) : Prop :=
  f = f64_zero ∨ f = f64_one.

End Float.
Import Float.

(** ** Tensors *)

Record tensor (A : Type) : Type := Tensor {
  shape : list nat;
  data : list A
}.
Arguments Tensor {A} shape data.
Arguments shape {A} t.
Arguments data {A} t.

Definition numel (dims : list nat) : nat := foldr Nat.mul 1 dims.

(** [torch.tensor(v)]: a zero-dimensional tensor *)
Definition scalar {A} (v : A) : tensor A := Tensor [] [v].

(** [t.squeeze()]: every dimension of size one is removed *)
Definition squeeze {A} (t : tensor A) : tensor A :=
  Tensor (filter (λ d, d ≠ 1) (shape t)) (data t).

(** [t[i]] for a non-negative literal [i]: indexes the first dimension *)
Definition getitem {A} (t : tensor A) (i : nat) : result (tensor A) :=
  match shape t with
  | [] => Raise IndexError
  | d :: rest =>
      if decide (i < d)
      then Ok (Tensor rest (take (numel rest) (drop (i * numel rest) (data t))))
      else Raise IndexError
  end.

(** [t > c] *)
Definition tensor_gt (t : tensor float) (c : float) : tensor bool :=
  Tensor (shape t) (map (λ v, gt v c) (data t)).

(** [t.float()] on a boolean tensor *)
Definition tensor_float (t : tensor bool) : tensor float :=
  Tensor (shape t) (map (λ b : bool, if b then f32_one else f32_zero) (data t)).

(** [torch.isnan(t)] *)
Definition torch_isnan (t : tensor float) : tensor bool :=
  Tensor (shape t) (map isnan (data t)).

(** [bool(t)], as used by [not t]: only a one-element tensor has a truth
    value *)
Definition tensor_bool (t : tensor bool) : result bool :=
  match data t with
  | [b] => Ok b
  | _ => Raise RuntimeError
  end.

(** [t.numpy().ravel().item()]: the single element, as a Python float *)
Definition item (t : tensor float) : result float :=
  match data t with
  | [v] => Ok (to_double v)
  | _ => Raise ValueError
  end.

(** ** Rows, frames, models *)

(** A [pyg.data.Data] sample: the attributes the notebook reads. *)
Record Data : Type := mkData {
  mol_smiles : string;
  mol_y : tensor float
}.

(** A row of the frame built by [prepare_dataset]: index [smiles], columns
    [x] (an array of unsigned bytes) and [y]. *)
Record Row : Type := mkRow {
  df_smiles : string;
  df_x : list Z;
  df_y : float
}.

Definition DataFrame := list Row.

(** A fitted classifier, as far as the notebook uses it: [predict_proba]
    maps a feature matrix to one pair of class probabilities per row. *)
Record CatBoostModel : Type := mkModel {
  predict_proba : list (list Z) → list (float * float)
}.

(** ** The heap *)

Definition loc := positive.

Inductive obj : Type :=
| OData (d : Data)
| OFrame (df : DataFrame)
| OModel (m : CatBoostModel).

Record world : Type := mkWorld {
  heap : gmap loc obj;
  rdlog : bool   (* is the rdApp log channel enabled *)
}.

Definition M (A : Type) : Type := world → result A * world.

Definition ret {A} (a : A) : M A := λ w, (Ok a, w).
Definition bind {A B} (m : M A) (k : A → M B) : M B :=
  λ w, match m w with
       | (Ok a, w') => k a w'
       | (Raise e, w') => (Raise e, w')
       end.
Definition lift {A} (r : result A) : M A := λ w, (r, w).

#[global] Instance M_ret : MRet M := @ret.
#[global] Instance M_bind : MBind M := λ A B k m, bind m k.

Fixpoint mapM {A B} (f : A → M B) (l : list A) : M (list B) :=
  match l with
  | [] => ret []
  | a :: l' => b ← f a; bs ← mapM f l'; ret (b :: bs)
  end.

Definition alloc (o : obj) : M loc := λ w,
  let l := fresh (dom (heap w)) in
  (Ok l, mkWorld (<[l := o]> (heap w)) (rdlog w)).

Definition read_data (l : loc) : M Data := λ w,
  match heap w !! l with
  | Some (OData d) => (Ok d, w)
  | _ => (Raise TypeError, w)
  end.

Definition read_frame (l : loc) : M DataFrame := λ w,
  match heap w !! l with
  | Some (OFrame df) => (Ok df, w)
  | _ => (Raise TypeError, w)
  end.

Definition read_model (l : loc) : M CatBoostModel := λ w,
  match heap w !! l with
  | Some (OModel m) => (Ok m, w)
  | _ => (Raise TypeError, w)
  end.

(** [sample.y = t] *)
Definition set_y (l : loc) (t : tensor float) : M unit := λ w,
  match heap w !! l with
  | Some (OData d) =>
      (Ok tt, mkWorld (<[l := OData (mkData (mol_smiles d) t)]> (heap w)) (rdlog w))
  | _ => (Raise TypeError, w)
  end.

(** [copy(sample)]: a new object with the same attribute values *)
Definition copy (l : loc) : M loc :=
  d ← read_data l; alloc (OData d).

(** [sample.y] *)
Definition get_y (l : loc) : M (tensor float) :=
  d ← read_data l; mret (mol_y d).

(** [RDLogger.DisableLog('rdApp.*')], [RDLogger.EnableLog('rdApp.*')] *)
Definition RDLogger_DisableLog : M unit := λ w, (Ok tt, mkWorld (heap w) false).
Definition RDLogger_EnableLog : M unit := λ w, (Ok tt, mkWorld (heap w) true).

(** A computation that leaves the world as it found it. *)
Definition read_only {A} (m : M A) : Prop := ∀ w, (m w).2 = w.

(** One world extends another when whatever the heap held before is still
    there, unchanged, afterwards. *)
Definition extends (w w' : world) : Prop :=
  ∀ l o, heap w !! l = Some o → heap w' !! l = Some o.

(** ** Label transforms (cell 3) *)

Definition transform_lipo (sample : loc) : M loc :=
  sample ← copy sample;
  y ← get_y sample;
  set_y sample (squeeze (tensor_float (tensor_gt y f32_3_5)));;
  mret sample.

Definition transform_hiv (sample : loc) : M loc :=
  sample ← copy sample;
  y ← get_y sample;
  set_y sample (squeeze y);;
  mret sample.

Definition transform_bppp (sample : loc) : M loc :=
  sample ← copy sample;
  y ← get_y sample;
  set_y sample (squeeze y);;
  mret sample.

Definition transform_tox21 (sample : loc) : M loc :=
  sample ← copy sample;
  y ← get_y sample;
  t ← lift (getitem (squeeze y) 2);
  set_y sample t;;
  mret sample.

Definition transform_clintox (sample : loc) : M loc :=
  sample ← copy sample;
  y ← get_y sample;
  t ← lift (getitem (squeeze y) 0);
  set_y sample t;;
  mret sample.

Definition is_y_not_na (sample : loc) : M bool :=
  d ← read_data sample;
  b ← lift (tensor_bool (torch_isnan (mol_y d)));
  ret (negb b).

Inductive dataset : Type := lipo | hiv | bbbp | clintox | tox21.

Definition transforms (name : dataset) : loc → M loc :=
  match name with
  | lipo => transform_lipo
  | hiv => transform_hiv
  | bbbp => transform_bppp
  | clintox => transform_clintox
  | tox21 => transform_tox21
  end.

(** The label each transform assigns, as a function of the raw label
    tensor: the right-hand sides of the five assignments to [sample.y]. *)
Definition label_of (name : dataset) (y : tensor float) : result (tensor float) :=
  match name with
  | lipo => Ok (squeeze (tensor_float (tensor_gt y f32_3_5)))
  | hiv => Ok (squeeze y)
  | bbbp => Ok (squeeze y)
  | clintox => getitem (squeeze y) 0
  | tox21 => getitem (squeeze y) 2
  end.

(** The shape the five transforms share. *)
Definition transform_with (label : tensor float → result (tensor float))
    (sample : loc) : M loc :=
  sample' ← copy sample;
  y ← get_y sample';
  t ← lift (label y);
  set_y sample' t;;
  mret sample'.

(** [pd.Series(filter(is_y_not_na, map(transform, data)))]: the lazy [map]
    and [filter] are driven element by element.  (The assertions that
    follow in the cell inspect the first hundred survivors and change
    nothing.) *)
Fixpoint map_filter (transform : loc → M loc) (data : list loc) : M (list loc) :=
  match data with
  | [] => ret []
  | sample :: rest =>
      sample' ← transform sample;
      keep ← is_y_not_na sample';
      kept ← map_filter transform rest;
      ret (if keep : bool then sample' :: kept else kept)
  end.

(** The label data the loader is expected to supply: for the thresholded
    dataset any values, for the other four only 0.0, 1.0 and NaN. *)
Definition raw_ok (name : dataset) (y : tensor float) : Prop :=
  match name with
  | lipo => True
  | _ => Forall (λ v, isnan v = true ∨ is_binary32 v) (data y)
  end.

(** ** External libraries as interfaces *)

(** rdkit.  [MolFromSmiles] returns [None] for a string it cannot parse;
    [GenMACCSKeys] is defined on molecules only (on [None] the binding
    raises), and yields a bit vector. *)
Class RDKit : Type := {
  Mol : Type;
  MolFromSmiles : string → option Mol;
  GenMACCSKeys : Mol → list bool
}.

(** numpy's random generators.  [uniform g n] stands for
    [g.uniform(0, 1, size=n)]: it returns [n] doubles and the advanced
    generator. *)
Class NumpyRandom : Type := {
  Generator : Type;
  default_rng : Z → Generator;
  uniform : Generator → nat → list float * Generator;
  uniform_length : ∀ g n, length (fst (uniform g n)) = n
}.

(** catboost.  [fit class_weights X y eval_set] stands for constructing a
    [CatBoostClassifier] with the notebook's fixed options and the given
    class weights, and fitting it. *)
Class CatBoost : Type := {
  fit : list Q → list (list Z) → list float →
        list (list Z) * list float → result CatBoostModel
}.

(** The library's behaviour on one class: with the [Logloss] objective the
    classifier is binary, and [fit] refuses a list that holds a single
    class weight. *)
Definition fit_refuses_one_weight `{CatBoost} : Prop :=
  ∀ q X y eval_set, is_ok (fit [q] X y eval_set) = false.

(** ** Fingerprints (cell 5) *)

(** [bits.ToBitString()] *)
Definition ToBitString (bits : list bool) : string :=
  string_of_list_ascii (map (λ b : bool, if b then "1"%char else "0"%char) bits).

(** [bytes(s, 'utf-8')]: strings are kept as their UTF-8 byte sequences *)
Definition bytes_utf8 (s : string) : list Z :=
  map (λ c, Z.of_N (N_of_ascii c)) (list_ascii_of_string s).

(** [a - k] on an array of dtype [u1]: the result stays in [u1] and wraps *)
Definition u1_sub (a : list Z) (k : Z) : list Z :=
  map (λ b, ((b - k) mod 256)%Z) a.

Definition ord_0 : Z := 48.

Definition smiles2fingerprint `{RDKit} (smiles : string) : result (list Z) :=
  match MolFromSmiles smiles with
  | None => Raise ArgumentError
  | Some mol =>
      let bits := GenMACCSKeys mol in
      Ok (u1_sub (bytes_utf8 (ToBitString bits)) ord_0)
  end.

(** ** Reading the heap

    The object at a location, as a sample or as a frame. *)
Definition get_data (h : gmap loc obj) (l : loc) : result Data :=
  match h !! l with
  | Some (OData d) => Ok d
  | _ => Raise TypeError
  end.

Definition get_frame (h : gmap loc obj) (l : loc) : result DataFrame :=
  match h !! l with
  | Some (OFrame df) => Ok df
  | _ => Raise TypeError
  end.

(** What [prepare_dataset] hands back, read off the heap it leaves: the
    rows of the three frames. *)
Definition frames_of (out : result (loc * loc * loc) * world)
    : result (DataFrame * DataFrame * DataFrame) :=
  match out with
  | (Ok (df_train, df_valid, df_tests), w') =>
      rbind (get_frame (heap w') df_train) (λ train,
      rbind (get_frame (heap w') df_valid) (λ valid,
      rbind (get_frame (heap w') df_tests) (λ tests,
      Ok (train, valid, tests))))
  | (Raise e, _) => Raise e
  end.

(** The rows of a table paired with their positions. *)
Definition enumerate_from {A} (k : nat) (rows : list A) : list (nat * A) :=
  zip (seq k (length rows)) rows.
Definition enumerate {A} (rows : list A) : list (nat * A) := enumerate_from 0 rows.

(** The structure strings of a sequence of samples, in order. *)
Definition smiles_of (h : gmap loc obj) (data0 : list loc) : list string :=
  omap (λ mol, match h !! mol with
               | Some (OData d) => Some (mol_smiles d)
               | _ => None
               end) data0.

(** ** Building and splitting the frame (cell 6) *)

(** [a < c], [a > c], [a >= c] and [a & b] on arrays *)
Definition np_lt (a : list float) (c : float) : list bool := map (λ u, lt u c) a.
Definition np_gt (a : list float) (c : float) : list bool := map (λ u, gt u c) a.
Definition np_ge (a : list float) (c : float) : list bool := map (λ u, ge u c) a.
Definition np_and (a b : list bool) : list bool := zip_with andb a b.

(** The rows a boolean mask keeps, in order. *)
Fixpoint select {A} (mask : list bool) (rows : list A) : list A :=
  match mask, rows with
  | b :: mask', r :: rows' =>
      if b then r :: select mask' rows' else select mask' rows'
  | _, _ => []
  end.

(** [df.iloc[mask]] with a boolean array: the mask must have one entry per
    row. *)
Definition iloc {A} (rows : list A) (mask : list bool) : result (list A) :=
  if decide (length mask = length rows) then Ok (select mask rows)
  else Raise IndexError.

(** [pd.DataFrame({"smiles": .., "x": .., "y": ..}).set_index("smiles")] *)
Fixpoint make_frame (smiles : list string) (x : list (list Z)) (y : list float)
    : DataFrame :=
  match smiles, x, y with
  | s :: smiles', a :: x', v :: y' => mkRow s a v :: make_frame smiles' x' y'
  | _, _, _ => []
  end.

Definition seed : Z := 0.

Section prepare.
Context `{RDKit} `{NumpyRandom}.

(** The frame [df] of [prepare_dataset]: the expression
    [pd.DataFrame({...}).set_index("smiles")].  The three list
    comprehensions run one after the other. *)
Definition build_frame (data : list loc) : M DataFrame :=
  smiles ← mapM (λ mol, d ← read_data mol; mret (mol_smiles d)) data;
  x ← mapM (λ mol, d ← read_data mol; lift (smiles2fingerprint (mol_smiles d))) data;
  y ← mapM (λ mol, d ← read_data mol; lift (item (mol_y d))) data;
  mret (make_frame smiles x y).

(** The same frame as a function of the heap: the three passes over the
    samples only read. *)
Definition frame_of_heap (h : gmap loc obj) (data : list loc) : result DataFrame :=
  rbind (rmap (λ mol, rbind (get_data h mol) (λ d, Ok (mol_smiles d))) data) (λ smiles,
  rbind (rmap (λ mol, rbind (get_data h mol)
                            (λ d, smiles2fingerprint (mol_smiles d))) data) (λ x,
  rbind (rmap (λ mol, rbind (get_data h mol) (λ d, item (mol_y d))) data) (λ y,
  Ok (make_frame smiles x y)))).

(** The three masks of [prepare_dataset] on a table of [n] rows. *)
Definition train_split (n : nat) : list float :=
  fst (uniform (default_rng seed) n).
Definition mask_train (n : nat) : list bool := np_lt (train_split n) f64_0_8.
Definition mask_valid (n : nat) : list bool :=
  np_and (np_lt (train_split n) f64_0_9) (np_ge (train_split n) f64_0_8).
Definition mask_tests (n : nat) : list bool := np_gt (train_split n) f64_0_9.

Definition prepare_dataset (data : list loc) : M (loc * loc * loc) :=
  let train_split := train_split (length data) in
  RDLogger_DisableLog;;
  df ← build_frame data;
  RDLogger_EnableLog;;
  train ← lift (iloc df (np_lt train_split f64_0_8));
  df_train ← alloc (OFrame train);
  valid ← lift (iloc df (np_and (np_lt train_split f64_0_9)
                                (np_ge train_split f64_0_8)));
  df_valid ← alloc (OFrame valid);
  tests ← lift (iloc df (np_gt train_split f64_0_9));
  df_tests ← alloc (OFrame tests);
  mret (df_train, df_valid, df_tests).
End prepare.

(** ** numpy and scikit-learn routines *)

(** [np.stack(arrays)]: at least one array, all of one shape *)
Definition np_stack {A} (arrays : list (list A)) : result (list (list A)) :=
  match arrays with
  | [] => Raise ValueError
  | a :: rest =>
      if forallb (λ b, Nat.eqb (length b) (length a)) rest then Ok arrays
      else Raise ValueError
  end.

(** [np.stack(column.to_numpy())] on a column of scalars *)
Definition np_stack_scalars {A} (column : list A) : result (list A) :=
  match column with
  | [] => Raise ValueError
  | _ => Ok column
  end.

Fixpoint insert_unique (v : float) (l : list float) : list float :=
  match l with
  | [] => [v]
  | x :: l' =>
      match SFcompare v x with
      | Some Lt => v :: x :: l'
      | Some Eq => x :: l'
      | _ => x :: insert_unique v l'
      end
  end.

(** [np.unique(a)]: the distinct values, ascending *)
Definition np_unique (a : list float) : list float := foldr insert_unique [] a.

Definition count_of (c : float) (y : list float) : nat :=
  length (filter (λ v, eqb v c = true) y).

(** [a / b] on counts; the callers guard the zero denominator *)
Definition ratio (a b : nat) : Q := (inject_Z (Z.of_nat a) / inject_Z (Z.of_nat b))%Q.

Module sklearn.

(** Modelled from the spec: scikit-learn's [compute_class_weight] with
    [class_weight='balanced'] is a library routine absent from the
    notebook; it is written out from the balanced weighting formula
    weight(c) = n_samples / (n_classes * n_samples_in_class_c), with the
    routine's argument check that [classes] and the labels of [y] cover
    each other.  The formula is the whole of the routine: it has no check
    on the number of classes, so a label column with one class gets the
    single weight n / (1 * n); only an empty label column is refused. *)
Definition compute_class_weight (classes y : list float) : result (list Q) :=
  if forallb (λ v, existsb (eqb v) classes) y
     && forallb (λ c, existsb (eqb c) y) classes
  then
    match y with
    | [] => Raise IndexError
    | _ =>
        let n_samples := length y in
        let n_classes := length (np_unique y) in
        Ok (map (λ c, ratio n_samples (n_classes * count_of c y)) classes)
    end
  else Raise ValueError.

Definition check_consistent_length {A B} (a : list A) (b : list B) : result unit :=
  if decide (length a = length b) then Ok tt else Raise ValueError.

(** The library accepts a label column as a binary target when its values
    are 0 and 1; anything else is refused. *)
Definition as_class (v : float) : result bool :=
  if eqb v f64_one then Ok true
  else if eqb v f64_zero then Ok false
  else Raise ValueError.

Definition binary_target (y_true : list float) : result (list bool) :=
  rmap as_class y_true.

Definition count_pairs (p : bool → bool → bool) (t pr : list bool) : nat :=
  length (filter (λ tp : bool * bool, p tp.1 tp.2 = true) (zip t pr)).

Definition tp := count_pairs (λ t p, t && p).
Definition fp := count_pairs (λ t p, negb t && p).
Definition fn := count_pairs (λ t p, t && negb p).
Definition tn := count_pairs (λ t p, negb t && negb p).

Definition guarded_ratio (a b : nat) : Q :=
  if decide (b = 0) then 0%Q else ratio a b.

(** Modelled from the spec: the four threshold metrics are scikit-learn
    routines absent from the notebook; they follow their standard
    definitions on the confusion counts of (true label, binary
    prediction) pairs, an undefined ratio being reported as 0. *)
Definition accuracy_score (y_true : list float) (y_pred : list bool) : result Q :=
  rbind (check_consistent_length y_true y_pred) (λ _,
  rbind (binary_target y_true) (λ t,
  Ok (ratio (tp t y_pred + tn t y_pred) (length t)))).

Definition recall_score (y_true : list float) (y_pred : list bool) : result Q :=
  rbind (check_consistent_length y_true y_pred) (λ _,
  rbind (binary_target y_true) (λ t,
  Ok (guarded_ratio (tp t y_pred) (tp t y_pred + fn t y_pred)))).

Definition precision_score (y_true : list float) (y_pred : list bool) : result Q :=
  rbind (check_consistent_length y_true y_pred) (λ _,
  rbind (binary_target y_true) (λ t,
  Ok (guarded_ratio (tp t y_pred) (tp t y_pred + fp t y_pred)))).

Definition f1_score (y_true : list float) (y_pred : list bool) : result Q :=
  rbind (check_consistent_length y_true y_pred) (λ _,
  rbind (binary_target y_true) (λ t,
  Ok (guarded_ratio (2 * tp t y_pred)
                    (2 * tp t y_pred + fp t y_pred + fn t y_pred)))).

(** The threshold sweep shared by the two curves: for every distinct
    score, from the highest down, the numbers of positives and of
    negatives scored at least that high. *)
Definition at_least (t : list bool) (y_score : list float) (cls : bool)
    (thr : float) : nat :=
  length (filter (λ p : bool * float, (Bool.eqb p.1 cls && ge p.2 thr) = true)
                 (zip t y_score)).

Definition binary_clf_curve (t : list bool) (y_score : list float)
    : list (nat * nat) :=
  map (λ thr, (at_least t y_score false thr, at_least t y_score true thr))
      (rev (np_unique y_score)).

Fixpoint trapezoid (x y : list Q) : Q :=
  match x, y with
  | x0 :: ((x1 :: _) as x'), y0 :: ((y1 :: _) as y') =>
      ((x1 - x0) * (y0 + y1) / 2 + trapezoid x' y')%Q
  | _, _ => 0%Q
  end.

Fixpoint monotone (le : Q → Q → bool) (x : list Q) : bool :=
  match x with
  | x0 :: ((x1 :: _) as x') => le x0 x1 && monotone le x'
  | _ => true
  end.

(** [auc(x, y)]: trapezoidal area; [x] must have two points at least and
    be monotone, a decreasing [x] flipping the sign. *)
Definition auc (x y : list Q) : result Q :=
  if decide (length x < 2) then Raise ValueError
  else if monotone Qle_bool x then Ok (trapezoid x y)
  else if monotone (λ a b, Qle_bool b a) x then Ok (- trapezoid x y)%Q
  else Raise ValueError.

Definition scores_ok (y_score : list float) : bool :=
  forallb (λ v, negb (isnan v)) y_score.

(** Modelled from the spec: [precision_recall_curve] is a scikit-learn
    routine absent from the notebook; it is the standard sweep, returned
    from the lowest threshold up and closed by the point
    (precision 1, recall 0).  Without a positive example recall is
    reported as 1 throughout. *)
Definition precision_recall_curve (y_true y_score : list float)
    : result (list Q * list Q) :=
  rbind (check_consistent_length y_true y_score) (λ _,
  rbind (binary_target y_true) (λ t,
  if scores_ok y_score then
    let pts := rev (binary_clf_curve t y_score) in
    let n_pos := length (filter (λ b : bool, b = true) t) in
    let precision := map (λ c : nat * nat, ratio c.2 (c.2 + c.1)) pts in
    let recall := map (λ c : nat * nat,
                         if decide (n_pos = 0) then 1%Q else ratio c.2 n_pos) pts in
    Ok (precision ++ [1%Q], recall ++ [0%Q])
  else Raise ValueError)).

(** Modelled from the spec: [roc_auc_score] is a scikit-learn routine
    absent from the notebook; it is the trapezoidal area under the curve
    of (false positive rate, true positive rate) over the same sweep,
    started at the origin, and is refused when only one class occurs. *)
Definition roc_auc_score (y_true y_score : list float) : result Q :=
  rbind (check_consistent_length y_true y_score) (λ _,
  rbind (binary_target y_true) (λ t,
  let n_pos := length (filter (λ b : bool, b = true) t) in
  let n_neg := length (filter (λ b : bool, b = false) t) in
  if decide (n_pos = 0 ∨ n_neg = 0) then Raise ValueError
  else if scores_ok y_score then
    let pts := (0, 0) :: binary_clf_curve t y_score in
    auc (map (λ c : nat * nat, ratio c.1 n_neg) pts)
        (map (λ c : nat * nat, ratio c.2 n_pos) pts)
  else Raise ValueError)).

End sklearn.

(** ** Metrics (cell 8) *)

Record Metrics : Type := mkMetrics {
  accuracy : Q;
  recall : Q;
  precision : Q;
  f1 : Q;
  roc_auc : Q;
  pr_auc : Q
}.

(** [pred_probs > threshold] *)
Definition predict_labels (pred_probs : list float) (threshold : float) : list bool :=
  np_gt pred_probs threshold.

Definition compute_metrics (model df : loc) (threshold : float) : M Metrics :=
  m ← read_model model;
  rows ← read_frame df;
  X ← lift (np_stack (map df_x rows));
  let pred_probs := map snd (predict_proba m X) in
  let pred := predict_labels pred_probs threshold in
  let true := map df_y rows in
  '(precisions, recalls) ← lift (sklearn.precision_recall_curve true pred_probs);
  accuracy ← lift (sklearn.accuracy_score true pred);
  recall ← lift (sklearn.recall_score true pred);
  precision ← lift (sklearn.precision_score true pred);
  f1 ← lift (sklearn.f1_score true pred);
  roc_auc ← lift (sklearn.roc_auc_score true pred_probs);
  pr_auc ← lift (sklearn.auc recalls precisions);
  ret (mkMetrics accuracy recall precision f1 roc_auc pr_auc).

(** The confusion counts of a table at a threshold, read off row by row
    from the true labels and the predicted probabilities: a row counts as
    predicted positive when its probability is strictly above the
    threshold, and as actually positive when its label is 1.0. *)
Definition confusion_count (threshold : float) (actual predicted : bool)
    (labels probs : list float) : nat :=
  length (filter (λ yp : float * float,
                    Bool.eqb (eqb yp.1 f64_one) actual
                    && Bool.eqb (SFltb threshold yp.2) predicted = true)
                 (zip labels probs)).

(** ** Training (cell 10) *)

Section training.
Context `{CatBoost}.

(** The class weights of a training frame. *)
Definition class_weights (y : list float) : result (list Q) :=
  sklearn.compute_class_weight (np_unique y) y.

(** The body of the loop from the class weights to the fitted model. *)
Definition train (df_train df_valid : loc) : M loc :=
  tr ← read_frame df_train;
  weights ← lift (class_weights (map df_y tr));
  X ← lift (np_stack (map df_x tr));
  y ← lift (np_stack_scalars (map df_y tr));
  va ← read_frame df_valid;
  m ← lift (fit weights X y (map df_x va, map df_y va));
  alloc (OModel m).
End training.

(** ** The checks after the filter (cell 3)

    The loop [for i in range(100)] over the filtered series.  It only reads;
    its outcome is a function of the samples the series holds.  The dtype
    assertion is not represented: every tensor of this development is
    binary32.  [isclose a b] stands for [torch.isclose(a, torch.tensor(b))]
    with the default tolerances. *)

Inductive check_outcome : Type :=
| Checked
| KeyError_at (i : nat)
| AssertionError_at (i : nat).

Section checks.
Variable isclose : float → float → bool.

(** The assertions on one sample: the label is zero-dimensional and close
    to 0.0 or to 1.0. *)
Definition sample_asserts (sample : Data) : bool :=
  match shape (mol_y sample), data (mol_y sample) with
  | [], [v] => isclose v f32_zero || isclose v f32_one
  | _, _ => false
  end.

(** [fuel] iterations from index [i] on; [data[i]] is a lookup by label in
    the series' default index. *)
Fixpoint check_loop (series : list Data) (i fuel : nat) : check_outcome :=
  match fuel with
  | 0 => Checked
  | S fuel' =>
      match series !! i with
      | None => KeyError_at i
      | Some sample =>
          if sample_asserts sample then check_loop series (S i) fuel'
          else AssertionError_at i
      end
  end.

Definition check_first_100 (series : list Data) : check_outcome :=
  check_loop series 0 100.
End checks.

(** The samples behind a sequence of locations. *)
Definition get_datas (h : gmap loc obj) (l : list loc) : list Data :=
  omap (λ mol, match h !! mol with
               | Some (OData d) => Some d
               | _ => None
               end) l.

(** What the map and the filter make of one raw sample, when they return:
    the relabelled copy, or nothing when the label is NaN. *)
Definition survivor (name : dataset) (d : Data) : option Data :=
  match label_of name (mol_y d) with
  | Ok t =>
      match data t with
      | [v] => if isnan v then None else Some (mkData (mol_smiles d) t)
      | _ => None
      end
  | Raise _ => None
  end.

(** ** The run over one dataset (cell 10)

    The body of the loop over [datasets]: split, fit, and the three metric
    tables in the order train, valid, tests.  The entries written to
    [models] and [results] are the values returned. *)

Definition threshold : float := f64_0_5.

Section run.
Context `{RDKit} `{NumpyRandom} `{CatBoost}.

Definition run_dataset (data : list loc) : M (loc * (Metrics * Metrics * Metrics)) :=
  '(df_train, df_valid, df_tests) ← prepare_dataset data;
  model ← train df_train df_valid;
  m_train ← compute_metrics model df_train threshold;
  m_valid ← compute_metrics model df_valid threshold;
  m_tests ← compute_metrics model df_tests threshold;
  mret (model, (m_train, m_valid, m_tests)).
End run.

(** ** The end-to-end scenario

    Ten true labels 1,0,1,0,1,0,1,0,1,0 and ten predicted probabilities
    0.9, 0.1, 0.8, 0.2, 0.7, 0.3, 0.6, 0.4, 0.55, 0.45, as doubles. *)

Definition d64 (m : positive) (e : Z) : float := S754_finite false m e.

Definition toy_labels : list float :=
  [ f64_one; f64_zero; f64_one; f64_zero; f64_one;
    f64_zero; f64_one; f64_zero; f64_one; f64_zero ].

Definition toy_probs : list float :=
  [ f64_0_9;                      d64 7205759403792794 (-56);
    f64_0_8;                      d64 7205759403792794 (-55);
    d64 6305039478318694 (-53);   d64 5404319552844595 (-54);
    d64 5404319552844595 (-53);   d64 7205759403792794 (-54);
    d64 4953959590107546 (-53);   d64 8106479329266893 (-54) ].

(** ** Stand-ins for the external libraries

    Small instances of the three interfaces, used to run the embedding on
    concrete inputs. *)

Module standin.

(** A "molecule" is its own string; the string [?] does not parse.  The
    key vector has 167 positions, as rdkit's has: position 0 is never set
    and keys 1 to [length s] are. *)
#[export] Instance rdkit : RDKit := {|
  Mol := string;
  MolFromSmiles := λ s, if String.eqb s "?" then None else Some s;
  GenMACCSKeys := λ s, map (λ i, bool_decide (1 ≤ i ≤ String.length s)%nat)
                           (seq 0 167)
|}.

(** The draws cycle through 0.1, 0.8, 0.9, 0.95 and 0.5. *)
Definition draws : list float :=
  [ d64 7205759403792794 (-56); f64_0_8; f64_0_9;
    d64 8556839292003942 (-53); f64_0_5 ].

Definition draw (i : nat) : float := nth (i mod 5) draws f64_zero.

#[export] Program Instance rng : NumpyRandom := {|
  Generator := nat;
  default_rng := λ _, 0;
  uniform := λ g n, (map draw (seq g n), g + n)
|}.
Next Obligation. intros g n. simpl. by rewrite length_map, length_seq. Qed.

(** Fitting takes two class weights, as the binary objective does, and
    then gives a classifier that answers 0.5; any other number of class
    weights is refused. *)
#[export] Instance catboost : CatBoost := {|
  fit := λ class_weights _ _ _,
    match class_weights with
    | [_; _] => Ok (mkModel (λ X, map (λ _, (f64_0_5, f64_0_5)) X))
    | _ => Raise CatBoostError
    end
|}.

Definition toy_frame : DataFrame :=
  map (λ iv : nat * float, mkRow (String (ascii_of_nat (65 + iv.1)) "") [Z.of_nat iv.1] iv.2)
      (zip (seq 0 10) toy_labels).

(** A classifier that reads the probability off the row's feature. *)
Definition toy_model : CatBoostModel :=
  mkModel (λ X, map (λ x, match x with
                          | [i] => let p := nth (Z.to_nat i) toy_probs f64_zero in (p, p)
                          | _ => (f64_zero, f64_zero)
                          end) X).

Definition toy_world : world :=
  mkWorld {[ 1%positive := OModel toy_model; 2%positive := OFrame toy_frame ]} true.

(** The binary32 values 4.0 and 0.5. *)
Definition f32_4 : float := S754_finite false 8388608 (-21).
Definition f32_half : float := S754_finite false 8388608 (-24).

(** Two raw samples with a lipophilicity-like label of shape [1, 1], and
    two with twelve toxicity-like labels of shape [1, 12], one of them
    undefined at index 2. *)
Definition raw12 (third : float) : tensor float :=
  Tensor [1; 12] ([f32_zero; S754_nan; third] ++ repeat f32_zero 9).

Definition raw_world : world :=
  mkWorld {[ 1%positive := OData (mkData "CCO" (Tensor [1; 1] [f32_3_5]));
             2%positive := OData (mkData "CCN" (Tensor [1; 1] [f32_4]));
             3%positive := OData (mkData "CCO" (raw12 S754_nan));
             4%positive := OData (mkData "c1ccccc1" (raw12 f32_one)) ]} true.

(** Five filtered samples with scalar labels; the first two share their
    structure string. *)
Definition rows_world : world :=
  mkWorld {[ 1%positive := OData (mkData "CCO" (scalar f32_one));
             2%positive := OData (mkData "CCO" (scalar f32_zero));
             3%positive := OData (mkData "CCN" (scalar f32_one));
             4%positive := OData (mkData "c1ccccc1" (scalar f32_zero));
             5%positive := OData (mkData "C" (scalar f32_zero)) ]} false.

Definition rows_data : list loc :=
  [1%positive; 2%positive; 3%positive; 4%positive; 5%positive].

(** A training frame with one class only, and an empty validation
    frame. *)
Definition one_class_world : world :=
  mkWorld {[ 1%positive := OFrame [mkRow "CCO" [1%Z; 0%Z] f64_one;
                                   mkRow "CCN" [0%Z; 1%Z] f64_one;
                                   mkRow "C" [0%Z; 0%Z] f64_one];
             2%positive := OFrame [] ]} true.

(** A training frame with both classes, and an empty validation frame. *)
Definition two_class_world : world :=
  mkWorld {[ 1%positive := OFrame [mkRow "CCO" [1%Z; 0%Z] f64_one;
                                   mkRow "CCN" [0%Z; 1%Z] f64_zero;
                                   mkRow "C" [0%Z; 0%Z] f64_one];
             2%positive := OFrame [] ]} true.

End standin.

(** ** Further inputs for running the embedding *)

Module fixtures.

Definition ragged_frame : DataFrame :=
  [mkRow "C" [0%Z] f64_one; mkRow "N" [0%Z; 1%Z] f64_zero].

(** A fitted model, an empty frame and a frame whose feature arrays differ
    in length. *)
Definition metrics_world : world :=
  mkWorld {[ 1%positive := OModel standin.toy_model;
             2%positive := OFrame [];
             3%positive := OFrame ragged_frame ]} true.

(** Two samples whose draws (0.1 and 0.8) leave the test partition
    empty. *)
Definition small_world : world :=
  mkWorld {[ 1%positive := OData (mkData "CCO" (scalar f32_one));
             2%positive := OData (mkData "CCN" (scalar f32_zero)) ]} true.

Definition small_data : list loc := [1%positive; 2%positive].

(** One raw sample of a pass-through dataset whose label is 0.5. *)
Definition half_world : world :=
  mkWorld {[ 1%positive := OData (mkData "CCO" (Tensor [1; 1] [standin.f32_half])) ]}
          true.

End fixtures.

(** * Properties *)

(** ** Fingerprints *)

Lemma length_ToBitString (bits : list bool) :
  length (bytes_utf8 (ToBitString bits)) = length bits.
Proof.
  unfold bytes_utf8, ToBitString.
  rewrite list_ascii_of_string_of_list_ascii.
  by rewrite !length_map.
Qed.

Lemma bytes_ToBitString (bits : list bool) :
  bytes_utf8 (ToBitString bits) = map (λ b : bool, if b then 49%Z else 48%Z) bits.
Proof.
  unfold bytes_utf8, ToBitString.
  rewrite list_ascii_of_string_of_list_ascii, map_map.
  apply map_ext. by intros [].
Qed.

Lemma u1_sub_bits (bits : list bool) :
  u1_sub (bytes_utf8 (ToBitString bits)) ord_0
  = map (λ b : bool, if b then 1%Z else 0%Z) bits.
Proof.
  rewrite bytes_ToBitString. unfold u1_sub. rewrite map_map.
  apply map_ext. by intros [].
Qed.

(** The encoder's output has one component per key of the library's bit
    vector, whatever their number. *)
Lemma smiles2fingerprint_length `{RDKit} (smiles : string) (mol : Mol) :
  MolFromSmiles smiles = Some mol →
  ∃ v, smiles2fingerprint smiles = Ok v ∧ length v = length (GenMACCSKeys mol).
Proof.
  intros Hmol. unfold smiles2fingerprint. rewrite Hmol.
  eexists. split; [reflexivity|].
  by rewrite u1_sub_bits, length_map.
Qed.

(** A string the library cannot parse makes the encoder raise. *)
Lemma smiles2fingerprint_unparsed `{RDKit} (smiles : string) :
  MolFromSmiles smiles = None → smiles2fingerprint smiles = Raise ArgumentError.
Proof. intros Hmol. unfold smiles2fingerprint. by rewrite Hmol. Qed.

(** ** The heap monad *)

Lemma bind_unfold {A B} (m : M A) (k : A → M B) (w : world) :
  (m ≫= k) w = match m w with
               | (Ok a, w') => k a w'
               | (Raise e, w') => (Raise e, w')
               end.
Proof. reflexivity. Qed.

Lemma read_data_ok (l : loc) (d : Data) (w : world) :
  heap w !! l = Some (OData d) → read_data l w = (Ok d, w).
Proof. intros Hl. unfold read_data. by rewrite Hl. Qed.

Lemma read_only_ret {A} (a : A) : read_only (mret a).
Proof. by intros w. Qed.

Lemma read_only_lift {A} (r : result A) : read_only (lift r).
Proof. by intros w. Qed.

Lemma read_only_bind {A B} (m : M A) (k : A → M B) :
  read_only m → (∀ a, read_only (k a)) → read_only (m ≫= k).
Proof.
  intros Hm Hk w. rewrite bind_unfold.
  specialize (Hm w). destruct (m w) as [[a|e] w']; simpl in *; subst; [apply Hk|done].
Qed.

Lemma read_only_read_data (l : loc) : read_only (read_data l).
Proof. intros w. unfold read_data. by destruct (heap w !! l) as [[]|]. Qed.

Lemma read_only_read_frame (l : loc) : read_only (read_frame l).
Proof. intros w. unfold read_frame. by destruct (heap w !! l) as [[]|]. Qed.

Lemma read_only_read_model (l : loc) : read_only (read_model l).
Proof. intros w. unfold read_model. by destruct (heap w !! l) as [[]|]. Qed.

Lemma read_only_mapM {A B} (f : A → M B) (l : list A) :
  (∀ a, read_only (f a)) → read_only (mapM f l).
Proof.
  intros Hf. induction l as [|a l IH]; simpl.
  - apply read_only_ret.
  - apply read_only_bind; [apply Hf|]. intros b.
    apply read_only_bind; [apply IH|]. intros bs. apply read_only_ret.
Qed.

Create HintDb frame discriminated.
#[global] Hint Resolve read_only_ret read_only_lift read_only_read_data
  read_only_read_frame read_only_read_model : frame.

Ltac frame_step :=
  first [ apply read_only_bind; [|intros ?] | solve [auto with frame] ].

Lemma extends_refl (w : world) : extends w w.
Proof. by intros l o. Qed.

Lemma extends_trans (w1 w2 w3 : world) :
  extends w1 w2 → extends w2 w3 → extends w1 w3.
Proof. intros H12 H23 l o Hl. by apply H23, H12. Qed.

Lemma fresh_heap_None (w : world) : heap w !! fresh (dom (heap w)) = None.
Proof. apply not_elem_of_dom, is_fresh. Qed.

Lemma alloc_extends (o : obj) (w : world) : extends w (alloc o w).2.
Proof.
  intros l o' Hl. simpl. rewrite lookup_insert_ne; [done|].
  intros <-. by rewrite fresh_heap_None in Hl.
Qed.

(** ** Label transforms *)

(** What a transform does, step by step: the sample is copied to a fresh
    location and the label tensor of the copy is replaced. *)
Lemma transform_with_spec (label : tensor float → result (tensor float))
    (sample : loc) (d : Data) (w : world) :
  heap w !! sample = Some (OData d) →
  let sample' := fresh (dom (heap w)) in
  transform_with label sample w =
    match label (mol_y d) with
    | Ok t => (Ok sample',
               mkWorld (<[sample' := OData (mkData (mol_smiles d) t)]> (heap w)) (rdlog w))
    | Raise e => (Raise e, mkWorld (<[sample' := OData d]> (heap w)) (rdlog w))
    end.
Proof.
  intros Hs sample'.
  unfold transform_with, copy, get_y, mbind, M_bind, bind, mret, M_ret, ret,
    read_data, alloc, lift, set_y.
  simpl. rewrite Hs. simpl. rewrite lookup_insert_eq. fold sample'.
  destruct (label (mol_y d)) as [t|e]; [|done].
  simpl. rewrite lookup_insert_eq. simpl. by rewrite insert_insert_eq.
Qed.

Lemma transforms_unfold (name : dataset) :
  transforms name = transform_with (label_of name).
Proof. by destruct name. Qed.

(** Running a transform: nothing that was in the heap changes, and the
    outcome follows the label extraction. *)
Lemma transforms_run (name : dataset) (sample : loc)
    (d : Data) (w : world) :
  heap w !! sample = Some (OData d) →
  let r := (transforms name sample w).1 in
  let w' := (transforms name sample w).2 in
  heap w' !! sample = Some (OData d)
  ∧ extends w w'
  ∧ match label_of name (mol_y d) with
    | Ok t => ∃ sample', r = Ok sample'
                         ∧ sample' ≠ sample
                         ∧ heap w !! sample' = None
                         ∧ heap w' !! sample' = Some (OData (mkData (mol_smiles d) t))
    | Raise e => r = Raise e
    end.
Proof.
  intros Hs. rewrite transforms_unfold. simpl.
  rewrite (transform_with_spec _ _ _ _ Hs).
  pose proof (fresh_heap_None w) as Hfresh.
  assert (Hne : fresh (dom (heap w)) ≠ sample).
  { intros E. rewrite E in Hfresh. congruence. }
  assert (Hext : ∀ o', extends w (mkWorld (<[fresh (dom (heap w)) := o']> (heap w)) (rdlog w))).
  { intros o' l o Hl. simpl. rewrite lookup_insert_ne; [done|].
    intros <-. congruence. }
  destruct (label_of name (mol_y d)) as [t|e]; simpl.
  - split; [by rewrite lookup_insert_ne|]. split; [apply Hext|].
    eexists. split; [reflexivity|]. split; [done|]. split; [done|].
    by rewrite lookup_insert_eq.
  - split; [by rewrite lookup_insert_ne|]. split; [apply Hext|done].
Qed.

(** C10.  Each of the five label transforms leaves its input sample
    unchanged: every object of the heap, the input sample with its
    structure string and label tensor among them, is afterwards what it was
    before; the transform returns exactly when the label extraction
    succeeds, and then returns a new record, at a location that was free,
    that carries the same structure string and the extracted label. *)
Theorem transforms_leave_input_unchanged (name : dataset) (sample : loc)
    (d : Data) (w : world) :
  heap w !! sample = Some (OData d) →
  let r := (transforms name sample w).1 in
  let w' := (transforms name sample w).2 in
  heap w' !! sample = Some (OData d)
  ∧ extends w w'
  ∧ match label_of name (mol_y d) with
    | Ok t => ∃ sample', r = Ok sample'
                         ∧ sample' ≠ sample
                         ∧ heap w !! sample' = None
                         ∧ heap w' !! sample' = Some (OData (mkData (mol_smiles d) t))
    | Raise e => r = Raise e
    end.
Proof. apply transforms_run. Qed.

Lemma transforms_leave_input_unchanged_witness :
  let w' := (transforms lipo 1%positive standin.raw_world).2 in
  heap w' !! 1%positive = Some (OData (mkData "CCO" (Tensor [1; 1] [f32_3_5])))
  ∧ (transforms lipo 1%positive standin.raw_world).1 = Ok 5%positive
  ∧ heap w' !! 5%positive = Some (OData (mkData "CCO" (Tensor [] [f32_zero]))).
Proof.
  pose proof (transforms_leave_input_unchanged lipo 1%positive
                (mkData "CCO" (Tensor [1; 1] [f32_3_5])) standin.raw_world
                eq_refl) as (Hsame & _ & Hnew).
  split; [exact Hsame|]. vm_compute. by split.
Defined.

(** ** Surviving labels *)

Lemma bind_ok_inv {A B} (m : M A) (k : A → M B) (w w' : world) (b : B) :
  (m ≫= k) w = (Ok b, w') →
  ∃ a w1, m w = (Ok a, w1) ∧ k a w1 = (Ok b, w').
Proof.
  rewrite bind_unfold. destruct (m w) as [[a|e] w1]; [eauto|done].
Qed.

Lemma is_binary32_of_bool (b : bool) :
  is_binary32 (if b then f32_one else f32_zero).
Proof. destruct b; [by right|by left]. Qed.

Lemma getitem_data {A} (t t' : tensor A) (i : nat) (P : A → Prop) :
  getitem t i = Ok t' → Forall P (data t) → Forall P (data t').
Proof.
  unfold getitem. destruct (shape t) as [|n rest]; [done|].
  case_decide; [|done]. intros [= <-] HP. simpl.
  by apply Forall_take, Forall_drop.
Qed.

(** The one element of an extracted label that is not NaN is 0.0 or 1.0. *)
Lemma label_of_binary (name : dataset) (y t : tensor float) (v : float) :
  raw_ok name y → label_of name y = Ok t → data t = [v] → isnan v = false →
  is_binary32 v.
Proof.
  intros Hraw Hlab Hdata Hnan.
  assert (Hpass : Forall (λ v, isnan v = true ∨ is_binary32 v) (data t) → is_binary32 v).
  { rewrite Hdata. intros [[|] _]%Forall_cons_1; [congruence|done]. }
  destruct name; simpl in *.
  - injection Hlab as <-. simpl in Hdata.
    destruct (data y) as [|u [|??]]; simplify_eq/=.
    apply is_binary32_of_bool.
  - injection Hlab as <-. by apply Hpass.
  - injection Hlab as <-. by apply Hpass.
  - apply Hpass. eapply getitem_data; [exact Hlab|done].
  - apply Hpass. eapply getitem_data; [exact Hlab|done].
Qed.

Lemma is_y_not_na_inv (sample : loc) (w w' : world) :
  is_y_not_na sample w = (Ok true, w') →
  w' = w ∧ ∃ d v, heap w !! sample = Some (OData d)
                  ∧ data (mol_y d) = [v] ∧ isnan v = false.
Proof.
  unfold is_y_not_na, mbind, M_bind, bind, read_data, lift, tensor_bool.
  destruct (heap w !! sample) as [[d| |]|] eqn:Hs; try done.
  simpl. destruct (map isnan (data (mol_y d))) as [|b [|??]] eqn:Hd; try done.
  simpl. intros [= Hb <-]. split; [done|]. exists d.
  destruct (data (mol_y d)) as [|v [|??]]; simplify_eq/=.
  exists v. split; [done|]. split; [done|]. by destruct (isnan v).
Qed.

Lemma is_y_not_na_world (sample : loc) (w : world) :
  (is_y_not_na sample w).2 = w.
Proof.
  apply (read_only_bind _ _ (read_only_read_data sample)).
  intros d. repeat frame_step.
Qed.

(** Outside the thresholded dataset the extracted label holds entries of
    the raw tensor, as they are. *)
Lemma label_of_entries (name : dataset) (y t : tensor float) (v : float) :
  name ≠ lipo → label_of name y = Ok t → v ∈ data t → v ∈ data y.
Proof.
  intros Hname Hlab Hv.
  assert (Hget : ∀ i, getitem (squeeze y) i = Ok t → v ∈ data y).
  { intros i Hi.
    assert (Hall : Forall (λ u, u ∈ data y) (data t)).
    { apply (getitem_data (squeeze y) t i _ Hi). simpl. by apply Forall_forall. }
    by apply (proj1 (Forall_forall _ _) Hall). }
  destruct name; simpl in Hlab.
  - done.
  - by injection Hlab as <-.
  - by injection Hlab as <-.
  - by eapply Hget.
  - by eapply Hget.
Qed.

(** Every sample the map and the filter keep is the relabelled copy of
    one input sample, and its label has a single element that is not
    NaN. *)
Lemma map_filter_origin (name : dataset) (data0 : list loc) :
  ∀ (kept : list loc) (w w' : world),
  (∀ sample, sample ∈ data0 → ∃ d, heap w !! sample = Some (OData d)) →
  map_filter (transforms name) data0 w = (Ok kept, w') →
  extends w w'
  ∧ ∀ sample', sample' ∈ kept →
      ∃ sample d d' v,
        sample ∈ data0
        ∧ heap w !! sample = Some (OData d)
        ∧ heap w' !! sample' = Some (OData d')
        ∧ mol_smiles d' = mol_smiles d
        ∧ label_of name (mol_y d) = Ok (mol_y d')
        ∧ data (mol_y d') = [v]
        ∧ isnan v = false.
Proof.
  induction data0 as [|sample rest IH]; intros kept w w' Hall Hrun.
  - injection Hrun as <- <-. split; [apply extends_refl|]. by intros ? ?%elem_of_nil.
  - simpl in Hrun.
    apply bind_ok_inv in Hrun as (sample' & w1 & Ht & Hrun).
    apply bind_ok_inv in Hrun as (keep & w2 & Hk & Hrun).
    apply bind_ok_inv in Hrun as (kept0 & w3 & Hrest & Hrun).
    injection Hrun as <- <-.
    destruct (Hall sample) as (d & Hs); [by left|].
    pose proof (transforms_run name sample d w Hs) as (_ & Hext & Hlab).
    rewrite Ht in Hext, Hlab. simpl in Hext, Hlab.
    pose proof (is_y_not_na_world sample' w1) as Hw2. rewrite Hk in Hw2.
    simpl in Hw2. subst w2.
    destruct (IH kept0 w1 w3) as (Hext' & Hkept0); [|done|].
    { intros s Hin. destruct (Hall s) as (ds & Hds); [by right|].
      exists ds. by apply Hext. }
    split; [by eapply extends_trans|].
    assert (Hold : ∀ s, s ∈ kept0 →
              ∃ s0 d0 d' v,
                s0 ∈ sample :: rest
                ∧ heap w !! s0 = Some (OData d0)
                ∧ heap w3 !! s = Some (OData d')
                ∧ mol_smiles d' = mol_smiles d0
                ∧ label_of name (mol_y d0) = Ok (mol_y d')
                ∧ data (mol_y d') = [v]
                ∧ isnan v = false).
    { intros s Hin.
      destruct (Hkept0 s Hin) as (s0 & d0 & d' & v & Hs0 & Hd0 & Hmore).
      exists s0, d0, d', v. split; [by right|]. split; [|done].
      destruct (Hall s0) as (ds & Hds); [by right|].
      pose proof (Hext _ _ Hds) as Hds1. rewrite Hd0 in Hds1.
      injection Hds1 as ->. done. }
    intros s Hin. destruct keep; [|by apply Hold].
    apply elem_of_cons in Hin as [->|Hin]; [|by apply Hold].
    apply is_y_not_na_inv in Hk as (_ & d' & v & Hd' & Hdata & Hnan).
    destruct (label_of name (mol_y d)) as [t|e] eqn:Hl; [|done].
    destruct Hlab as (s0 & [= <-] & _ & _ & Hnew).
    rewrite Hnew in Hd'. injection Hd' as <-.
    exists sample, d, (mkData (mol_smiles d) t), v.
    split; [by left|]. split; [done|]. split; [by apply Hext'|]. done.
Qed.




(** ** Comparisons against the split boundaries *)

Ltac pos_to_Z :=
  repeat match goal with
         | H : (_ < _)%positive |- _ => apply Pos2Z.pos_lt_pos in H
         | H : @eq positive _ _ |- _ => apply (f_equal Z.pos) in H
         end.

Ltac float_order u :=
  destruct u as [[]|[]| |[] m e]; try done;
  unfold lt, gt, ge, eqb, SFltb, SFleb, SFeqb, SFcompare, f64_0_8, f64_0_9;
  rewrite ?Pos.compare_cont_spec; unfold Pos.switch_Eq;
  destruct (Z.compare_spec e (-53)); try done;
  destruct (Z.compare_spec (-53) e); try done; try lia;
  destruct (Pos.compare_spec m 7205759403792794); try done;
  destruct (Pos.compare_spec 7205759403792794 m); try done;
  destruct (Pos.compare_spec m 8106479329266893); try done;
  destruct (Pos.compare_spec 8106479329266893 m); try done;
  pos_to_Z; lia.

Lemma lt_0_8_not_ge (u : float) : lt u f64_0_8 = true → ge u f64_0_8 = false.
Proof. float_order u. Qed.

Lemma lt_0_8_not_gt_0_9 (u : float) : lt u f64_0_8 = true → gt u f64_0_9 = false.
Proof. float_order u. Qed.

Lemma lt_0_9_not_gt (u : float) : lt u f64_0_9 = true → gt u f64_0_9 = false.
Proof. float_order u. Qed.

Lemma eq_0_9_unassigned (u : float) :
  eqb u f64_0_9 = true →
  lt u f64_0_8 = false ∧ lt u f64_0_9 = false ∧ gt u f64_0_9 = false.
Proof. intros Hu. repeat split; revert Hu; float_order u. Qed.

(** ** Masks and positions *)

Lemma map_lookup {A B} (f : A → B) (l : list A) (i : nat) :
  map f l !! i = f <$> (l !! i).
Proof. apply list_lookup_fmap. Qed.

Lemma select_enumerate_from {A} (mask : list bool) :
  ∀ (rows : list A) (k i : nat) (r : A),
  (i, r) ∈ select mask (enumerate_from k rows)
  ↔ ∃ j, i = k + j ∧ mask !! j = Some true ∧ rows !! j = Some r.
Proof.
  unfold enumerate_from.
  induction mask as [|b mask IH]; intros rows k i r.
  - simpl. split; [by intros ?%elem_of_nil|by intros (j & _ & ? & _)].
  - destruct rows as [|r0 rows]; simpl.
    { split; [by intros ?%elem_of_nil|by intros (j & _ & _ & ?)]. }
    assert (Htail : (i, r) ∈ select mask (zip (seq (S k) (length rows)) rows)
                    ↔ ∃ j, i = k + S j ∧ mask !! j = Some true ∧ rows !! j = Some r).
    { rewrite IH. split; intros (j & -> & ?); exists j; (split; [lia|done]). }
    destruct b.
    + rewrite elem_of_cons, Htail. split.
      * intros [[= -> ->]|(j & -> & ? & ?)].
        -- exists 0. split; [lia|done].
        -- by exists (S j).
      * intros ([|j] & -> & Hm & Hr); simpl in *.
        -- left. injection Hr as ->. f_equal. lia.
        -- right. by exists j.
    + rewrite Htail. split.
      * intros (j & -> & ? & ?). by exists (S j).
      * intros ([|j] & -> & Hm & Hr); simpl in *; [done|]. by exists j.
Qed.

Lemma select_enumerate {A} (mask : list bool) (rows : list A) (i : nat) (r : A) :
  (i, r) ∈ select mask (enumerate rows)
  ↔ mask !! i = Some true ∧ rows !! i = Some r.
Proof.
  unfold enumerate. rewrite select_enumerate_from. split.
  - by intros (j & -> & ?).
  - intros ?. by exists i.
Qed.

Lemma select_enumerate_snd {A} (mask : list bool) :
  ∀ (rows : list A) (k : nat),
  (select mask (enumerate_from k rows)).*2 = select mask rows.
Proof.
  unfold enumerate_from.
  induction mask as [|[] mask IH]; intros [|r rows] k; simpl; rewrite ?IH; done.
Qed.

Lemma select_sublist {A} (mask : list bool) (rows : list A) :
  select mask rows `sublist_of` rows.
Proof.
  revert rows. induction mask as [|[] mask IH]; intros [|r rows]; simpl;
    try apply sublist_nil_l.
  - by apply sublist_skip.
  - by apply sublist_cons.
Qed.

(** ** The frame of [prepare_dataset] *)

Section prepare_facts.
Context `{RDKit} `{NumpyRandom}.

Lemma mapM_read {B} (g : Data → result B) (data0 : list loc) (w : world) :
  mapM (λ mol, d ← read_data mol; lift (g d)) data0 w
  = (rmap (λ mol, rbind (get_data (heap w) mol) g) data0, w).
Proof.
  induction data0 as [|mol rest IH]; [done|].
  cbn [mapM rmap]. rewrite !bind_unfold.
  unfold read_data at 1. unfold get_data at 1.
  destruct (heap w !! mol) as [[d| |]|]; try done.
  cbn [rbind]. unfold lift at 1. destruct (g d) as [b|e]; [|done].
  rewrite bind_unfold, IH. by destruct (rmap _ rest).
Qed.

Lemma build_frame_spec (data0 : list loc) (w : world) :
  build_frame data0 w = (frame_of_heap (heap w) data0, w).
Proof.
  unfold build_frame, frame_of_heap.
  change (λ mol, d ← read_data mol; mret (mol_smiles d))
    with (λ mol, d ← read_data mol; lift (Ok (mol_smiles d))).
  unfold mbind at 1 2 3, M_bind, bind. simpl.
  rewrite (mapM_read (λ d, Ok (mol_smiles d))).
  destruct (rmap _ data0) as [smiles|e]; [|done]. simpl.
  rewrite (mapM_read (λ d, smiles2fingerprint (mol_smiles d))). simpl.
  destruct (rmap _ data0) as [x|e]; [|done]. simpl.
  rewrite (mapM_read (λ d, item (mol_y d))). simpl.
  by destruct (rmap _ data0) as [y|e].
Qed.
End prepare_facts.

Lemma rmap_length {A B} (f : A → result B) (l : list A) (l' : list B) :
  rmap f l = Ok l' → length l' = length l.
Proof.
  revert l'. induction l as [|a l IH]; intros l'; simpl.
  - by intros [= <-].
  - destruct (f a) as [b|]; [|done]. simpl.
    destruct (rmap f l) as [bs|]; [|done]. simpl.
    intros [= <-]. simpl. by rewrite (IH bs).
Qed.

Lemma rmap_ext {A B} (f g : A → result B) (l : list A) :
  (∀ a, a ∈ l → f a = g a) → rmap f l = rmap g l.
Proof.
  induction l as [|a l IH]; intros Hfg; [done|].
  simpl. rewrite (Hfg a), IH; [done| |by left].
  intros a' Ha'. apply Hfg. by right.
Qed.

Lemma make_frame_length (smiles : list string) (x : list (list Z)) (y : list float) :
  length x = length smiles → length y = length smiles →
  length (make_frame smiles x y) = length smiles.
Proof.
  revert x y. induction smiles as [|s smiles IH]; intros [|a x] [|v y]; simpl; try done.
  intros [= Hx] [= Hy]. by rewrite IH.
Qed.

Lemma make_frame_smiles (smiles : list string) (x : list (list Z)) (y : list float) :
  length x = length smiles → length y = length smiles →
  map df_smiles (make_frame smiles x y) = smiles.
Proof.
  revert x y. induction smiles as [|s smiles IH]; intros [|a x] [|v y]; simpl; try done.
  intros [= Hx] [= Hy]. by rewrite IH.
Qed.

Lemma rmap_smiles_of (h : gmap loc obj) (data0 : list loc) (smiles : list string) :
  rmap (λ mol, rbind (get_data h mol) (λ d, Ok (mol_smiles d))) data0 = Ok smiles →
  smiles = smiles_of h data0.
Proof.
  revert smiles. induction data0 as [|mol rest IH]; intros smiles; simpl.
  - by intros [= <-].
  - unfold get_data at 1, smiles_of. simpl.
    destruct (h !! mol) as [[d| |]|]; try done. simpl.
    destruct (rmap _ rest) as [ss|]; [|done]. simpl.
    intros [= <-]. f_equal. by apply IH.
Qed.

Lemma alloc_inv (o : obj) (w : world) :
  ∃ l w', alloc o w = (Ok l, w') ∧ heap w' !! l = Some o
          ∧ extends w w' ∧ rdlog w' = rdlog w.
Proof.
  eexists _, _. split; [reflexivity|]. split; [apply lookup_insert_eq|].
  split; [apply (alloc_extends o w)|done].
Qed.

Lemma bind_step {A B} (m : M A) (k : A → M B) (w : world) (a : A) (w' : world) :
  m w = (Ok a, w') → (m ≫= k) w = k a w'.
Proof. intros Hm. by rewrite bind_unfold, Hm. Qed.

Section prepare_theorems.
Context `{RDKit} `{NumpyRandom}.

Lemma frame_of_heap_inv (h : gmap loc obj) (data0 : list loc) (df : DataFrame) :
  frame_of_heap h data0 = Ok df →
  length df = length data0 ∧ map df_smiles df = smiles_of h data0.
Proof.
  unfold frame_of_heap.
  destruct (rmap (λ mol, rbind (get_data h mol) (λ d, Ok (mol_smiles d))) data0)
    as [smiles|] eqn:Hs; [|done]. simpl.
  destruct (rmap (λ mol, rbind (get_data h mol)
                               (λ d, smiles2fingerprint (mol_smiles d))) data0)
    as [x|] eqn:Hx; [|done]. simpl.
  destruct (rmap (λ mol, rbind (get_data h mol) (λ d, item (mol_y d))) data0)
    as [y|] eqn:Hy; [|done]. simpl.
  intros Hdf. injection Hdf as Hdf. subst df.
  apply rmap_length in Hx, Hy. pose proof (rmap_length _ _ _ Hs) as Hlen.
  apply rmap_smiles_of in Hs as Hsm.
  rewrite make_frame_length, make_frame_smiles by congruence. by rewrite Hlen.
Qed.

Lemma length_train_split (n : nat) : length (train_split n) = n.
Proof. apply uniform_length. Qed.

Lemma length_masks (n : nat) :
  length (mask_train n) = n ∧ length (mask_valid n) = n ∧ length (mask_tests n) = n.
Proof.
  unfold mask_train, mask_valid, mask_tests, np_and, np_lt, np_ge, np_gt.
  rewrite length_zip_with, !length_map, length_train_split. lia.
Qed.

(** The three frames [prepare_dataset] returns are the rows its masks
    select from the frame it built; it fails exactly when building the
    frame fails. *)
Lemma prepare_dataset_run (data0 : list loc) (w : world) :
  frames_of (prepare_dataset data0 w)
  = rbind (frame_of_heap (heap w) data0) (λ df,
      Ok (select (mask_train (length data0)) df,
          select (mask_valid (length data0)) df,
          select (mask_tests (length data0)) df))
  ∧ extends w (prepare_dataset data0 w).2
  ∧ (is_ok (frame_of_heap (heap w) data0) = false →
     heap (prepare_dataset data0 w).2 = heap w).
Proof.
  unfold prepare_dataset.
  rewrite (bind_step RDLogger_DisableLog _ w tt (mkWorld (heap w) false) eq_refl).
  rewrite bind_unfold, build_frame_spec. simpl heap.
  destruct (frame_of_heap (heap w) data0) as [df|e] eqn:Hdf;
    [|split; [done|split; [by intros ? ?|done]]].
  rewrite (bind_step RDLogger_EnableLog _ (mkWorld (heap w) false) tt
             (mkWorld (heap w) true) eq_refl).
  apply frame_of_heap_inv in Hdf as [Hlen _].
  destruct (length_masks (length data0)) as (Htr & Hva & Hte).
  fold (mask_train (length data0)) (mask_valid (length data0))
       (mask_tests (length data0)).
  set (w1 := mkWorld _ _). set (n := length data0) in *.
  assert (Hiloc : ∀ mask, length mask = n → iloc df mask = Ok (select mask df)).
  { intros mask Hm. unfold iloc. by rewrite decide_True by congruence. }
  rewrite !Hiloc by done.
  destruct (alloc_inv (OFrame (select (mask_train n) df)) w1)
    as (l1 & w2 & E1 & L1 & X1 & _).
  destruct (alloc_inv (OFrame (select (mask_valid n) df)) w2)
    as (l2 & w3 & E2 & L2 & X2 & _).
  destruct (alloc_inv (OFrame (select (mask_tests n) df)) w3)
    as (l3 & w4 & E3 & L3 & X3 & _).
  rewrite (bind_step (lift (Ok _)) _ w1 _ w1 eq_refl).
  rewrite (bind_step _ _ _ _ _ E1).
  rewrite (bind_step (lift (Ok _)) _ w2 _ w2 eq_refl).
  rewrite (bind_step _ _ _ _ _ E2).
  rewrite (bind_step (lift (Ok _)) _ w3 _ w3 eq_refl).
  rewrite (bind_step _ _ _ _ _ E3).
  simpl. unfold get_frame.
  rewrite (X3 _ _ (X2 _ _ L1)), (X3 _ _ L2), L3. split; [done|].
  split; [|done]. intros l o Hl. by apply X3, X2, X1.
Qed.

Lemma prepare_dataset_frames (data0 : list loc) (w : world) :
  frames_of (prepare_dataset data0 w)
  = rbind (frame_of_heap (heap w) data0) (λ df,
      Ok (select (mask_train (length data0)) df,
          select (mask_valid (length data0)) df,
          select (mask_tests (length data0)) df)).
Proof. apply prepare_dataset_run. Qed.

Lemma frame_of_heap_agree (data0 : list loc) (h1 h2 : gmap loc obj) :
  (∀ mol, mol ∈ data0 → h1 !! mol = h2 !! mol) →
  frame_of_heap h1 data0 = frame_of_heap h2 data0.
Proof.
  intros Hagree.
  assert (Hget : ∀ mol, mol ∈ data0 → get_data h1 mol = get_data h2 mol).
  { intros mol Hin. unfold get_data. by rewrite (Hagree mol Hin). }
  unfold frame_of_heap.
  rewrite (rmap_ext _ (λ mol, rbind (get_data h2 mol) (λ d, Ok (mol_smiles d))));
    [|intros mol Hin; by rewrite (Hget mol Hin)].
  destruct (rmap _ data0) as [smiles|]; [|done]. simpl.
  rewrite (rmap_ext _ (λ mol, rbind (get_data h2 mol)
                                    (λ d, smiles2fingerprint (mol_smiles d))));
    [|intros mol Hin; by rewrite (Hget mol Hin)].
  destruct (rmap _ data0) as [x|]; [|done]. simpl.
  rewrite (rmap_ext _ (λ mol, rbind (get_data h2 mol) (λ d, item (mol_y d))));
    [done|intros mol Hin; by rewrite (Hget mol Hin)].
Qed.

Lemma frame_of_heap_defined (data0 : list loc) (h : gmap loc obj) (df : DataFrame) :
  frame_of_heap h data0 = Ok df → ∀ mol, mol ∈ data0 → is_Some (h !! mol).
Proof.
  unfold frame_of_heap.
  destruct (rmap (λ mol, rbind (get_data h mol) (λ d, Ok (mol_smiles d))) data0)
    as [smiles|] eqn:Hs; [|done].
  intros _. clear df. revert smiles Hs.
  induction data0 as [|m rest IH]; intros smiles Hs mol Hin.
  - by apply elem_of_nil in Hin.
  - simpl in Hs. unfold get_data at 1 in Hs.
    destruct (h !! m) as [o|] eqn:Hm; [|done].
    destruct o; try done. simpl in Hs.
    destruct (rmap _ rest) as [ss|] eqn:Hrest; [|done].
    apply elem_of_cons in Hin as [->|Hin]; [by rewrite Hm|].
    by eapply IH.
Qed.

(** Calling [prepare_dataset] a second time, on the world the first call
    left, gives the same three frames again. *)
Lemma prepare_dataset_twice (data0 : list loc) (w : world) :
  frames_of (prepare_dataset data0 (prepare_dataset data0 w).2)
  = frames_of (prepare_dataset data0 w).
Proof.
  destruct (prepare_dataset_run data0 w) as (Hfirst & Hext & Hfail).
  rewrite !prepare_dataset_frames.
  destruct (frame_of_heap (heap w) data0) as [df|e] eqn:Hdf.
  - erewrite frame_of_heap_agree; [by rewrite Hdf|].
    intros mol Hin.
    destruct (frame_of_heap_defined _ _ _ Hdf mol Hin) as [o Ho].
    by rewrite Ho, (Hext _ _ Ho).
  - by rewrite (Hfail eq_refl), Hdf.
Qed.

(** [prepare_dataset] returns whenever every sample has a structure
    string that parses and a one-element label. *)
Lemma prepare_dataset_total (data0 : list loc) (w : world) (df : DataFrame) :
  frame_of_heap (heap w) data0 = Ok df →
  ∃ train valid tests, frames_of (prepare_dataset data0 w) = Ok (train, valid, tests).
Proof. intros Hdf. rewrite prepare_dataset_frames, Hdf. simpl. eauto. Qed.

Lemma mask_train_lookup (n i : nat) (u : float) :
  train_split n !! i = Some u → mask_train n !! i = Some (lt u f64_0_8).
Proof. intros Hu. unfold mask_train, np_lt. by rewrite map_lookup, Hu. Qed.

Lemma mask_valid_lookup (n i : nat) (u : float) :
  train_split n !! i = Some u →
  mask_valid n !! i = Some (lt u f64_0_9 && ge u f64_0_8).
Proof.
  intros Hu. unfold mask_valid, np_and, np_lt, np_ge.
  by rewrite lookup_zip_with, !map_lookup, Hu.
Qed.

Lemma mask_tests_lookup (n i : nat) (u : float) :
  train_split n !! i = Some u → mask_tests n !! i = Some (gt u f64_0_9).
Proof. intros Hu. unfold mask_tests, np_gt. by rewrite map_lookup, Hu. Qed.

Lemma mask_train_true (n i : nat) :
  mask_train n !! i = Some true
  ↔ ∃ u, train_split n !! i = Some u ∧ lt u f64_0_8 = true.
Proof.
  destruct (train_split n !! i) as [u|] eqn:Hu.
  - rewrite (mask_train_lookup _ _ _ Hu). split.
    + intros [= Hlt]. eauto.
    + intros (u' & [= <-] & ->). done.
  - unfold mask_train, np_lt. rewrite map_lookup, Hu. simpl.
    split; [done|by intros (? & ? & _)].
Qed.

Lemma mask_valid_true (n i : nat) :
  mask_valid n !! i = Some true
  ↔ ∃ u, train_split n !! i = Some u
         ∧ ge u f64_0_8 = true ∧ lt u f64_0_9 = true.
Proof.
  destruct (train_split n !! i) as [u|] eqn:Hu.
  - rewrite (mask_valid_lookup _ _ _ Hu). split.
    + intros [= [Hlt Hge]%andb_true_iff]. eauto.
    + intros (u' & [= <-] & -> & ->). done.
  - unfold mask_valid, np_and, np_lt, np_ge.
    rewrite lookup_zip_with, !map_lookup, Hu. simpl.
    split; [done|by intros (? & ? & _)].
Qed.

Lemma mask_tests_true (n i : nat) :
  mask_tests n !! i = Some true
  ↔ ∃ u, train_split n !! i = Some u ∧ gt u f64_0_9 = true.
Proof.
  destruct (train_split n !! i) as [u|] eqn:Hu.
  - rewrite (mask_tests_lookup _ _ _ Hu). split.
    + intros [= Hgt]. eauto.
    + intros (u' & [= <-] & ->). done.
  - unfold mask_tests, np_gt. rewrite map_lookup, Hu. simpl.
    split; [done|by intros (? & ? & _)].
Qed.

(** C2.  Whenever [prepare_dataset] returns, there is one draw per row of
    the table it built, and its three frames are exactly the rows of that
    table at the positions of the three partitions, in the table's order
    and each position at most once: the row at position [i] with draw [u]
    is in train if and only if [u < 0.8], in validation if and only if
    [0.8 <= u < 0.9], and in test if and only if [u > 0.9], and the frames
    hold nothing else; so no position is in two partitions, and a position
    whose draw is exactly 0.9 is in none. *)
Theorem prepare_dataset_partition (data0 : list loc) (w : world)
    (train valid tests : DataFrame) :
  frames_of (prepare_dataset data0 w) = Ok (train, valid, tests) →
  ∃ (df : DataFrame) (ptrain pvalid ptests : list (nat * Row)),
    frame_of_heap (heap w) data0 = Ok df
    ∧ length df = length data0
    ∧ length (train_split (length data0)) = length df
    ∧ train = ptrain.*2 ∧ valid = pvalid.*2 ∧ tests = ptests.*2
    ∧ ptrain `sublist_of` enumerate df
    ∧ pvalid `sublist_of` enumerate df
    ∧ ptests `sublist_of` enumerate df
    ∧ ∀ (i : nat) (row : Row),
        ((i, row) ∈ ptrain
         ↔ df !! i = Some row
           ∧ ∃ u, train_split (length data0) !! i = Some u
                  ∧ lt u f64_0_8 = true)
        ∧ ((i, row) ∈ pvalid
           ↔ df !! i = Some row
             ∧ ∃ u, train_split (length data0) !! i = Some u
                    ∧ ge u f64_0_8 = true ∧ lt u f64_0_9 = true)
        ∧ ((i, row) ∈ ptests
           ↔ df !! i = Some row
             ∧ ∃ u, train_split (length data0) !! i = Some u
                    ∧ gt u f64_0_9 = true)
        ∧ ¬ ((i, row) ∈ ptrain ∧ (i, row) ∈ pvalid)
        ∧ ¬ ((i, row) ∈ ptrain ∧ (i, row) ∈ ptests)
        ∧ ¬ ((i, row) ∈ pvalid ∧ (i, row) ∈ ptests)
        ∧ ∀ u, train_split (length data0) !! i = Some u →
               eqb u f64_0_9 = true →
               ¬ ((i, row) ∈ ptrain) ∧ ¬ ((i, row) ∈ pvalid)
               ∧ ¬ ((i, row) ∈ ptests).
Proof.
  rewrite prepare_dataset_frames.
  destruct (frame_of_heap (heap w) data0) as [df|e] eqn:Hdf; [|done].
  simpl. intros [= <- <- <-].
  apply frame_of_heap_inv in Hdf as [Hlen _].
  set (n := length data0) in *.
  exists df, (select (mask_train n) (enumerate df)),
         (select (mask_valid n) (enumerate df)),
         (select (mask_tests n) (enumerate df)).
  split; [done|]. split; [done|].
  split; [by rewrite length_train_split|].
  split; [symmetry; apply (select_enumerate_snd _ df 0)|].
  split; [symmetry; apply (select_enumerate_snd _ df 0)|].
  split; [symmetry; apply (select_enumerate_snd _ df 0)|].
  do 3 (split; [apply select_sublist|]).
  intros i row.
  rewrite !select_enumerate, mask_train_true, mask_valid_true, mask_tests_true.
  split; [tauto|]. split; [tauto|]. split; [tauto|].
  split; [|split; [|split]].
  - intros [[(u & Hu & Ht) _] [(u' & Hu' & Hg & _) _]].
    rewrite Hu in Hu'. injection Hu' as <-.
    by rewrite (lt_0_8_not_ge u Ht) in Hg.
  - intros [[(u & Hu & Ht) _] [(u' & Hu' & Hg) _]].
    rewrite Hu in Hu'. injection Hu' as <-.
    by rewrite (lt_0_8_not_gt_0_9 u Ht) in Hg.
  - intros [[(u & Hu & _ & Hl) _] [(u' & Hu' & Hg) _]].
    rewrite Hu in Hu'. injection Hu' as <-.
    by rewrite (lt_0_9_not_gt u Hl) in Hg.
  - intros u Hu Heq. destruct (eq_0_9_unassigned u Heq) as (E1 & E2 & E3).
    rewrite !select_enumerate, mask_train_true, mask_valid_true, mask_tests_true.
    split; [|split].
    + intros [(u' & Hu' & Ht) _]. rewrite Hu in Hu'. injection Hu' as <-.
      congruence.
    + intros [(u' & Hu' & _ & Hl) _]. rewrite Hu in Hu'. injection Hu' as <-.
      congruence.
    + intros [(u' & Hu' & Hg) _]. rewrite Hu in Hu'. injection Hu' as <-.
      congruence.
Qed.

(** C3.  [prepare_dataset] is reproducible: on the same samples in the
    same order, two invocations return frames with identical rows,
    whatever else the two heaps hold and whatever the state of the log
    switch (the generator is created inside the call from the fixed
    seed). *)
Theorem prepare_dataset_reproducible (data0 : list loc) (w1 w2 : world) :
  (∀ mol, mol ∈ data0 → heap w1 !! mol = heap w2 !! mol) →
  frames_of (prepare_dataset data0 w1) = frames_of (prepare_dataset data0 w2).
Proof.
  intros Hagree. rewrite !prepare_dataset_frames.
  by rewrite (frame_of_heap_agree data0 (heap w1) (heap w2)).
Qed.

(** Corrected C9.  The index column of the table [prepare_dataset] builds
    is the sequence of the samples' structure strings, one row per
    sample in the samples' order; the table's keys are therefore
    distinct exactly when the samples' strings are. *)
Theorem frame_index_follows_samples (data0 : list loc) (w : world) (df : DataFrame) :
  (build_frame data0 w).1 = Ok df →
  length df = length data0
  ∧ map df_smiles df = smiles_of (heap w) data0
  ∧ (NoDup (map df_smiles df) ↔ NoDup (smiles_of (heap w) data0)).
Proof.
  rewrite build_frame_spec. simpl. intros [Hlen Hsm]%frame_of_heap_inv.
  by rewrite Hsm.
Qed.
End prepare_theorems.

(** The stand-in draws over five rows: rows 0 and 4 go to train, row 1 to
    validation, row 3 to test, and row 2, whose draw is 0.9, to none. *)
Example standin_partition :
  rbind (frames_of (@prepare_dataset standin.rdkit standin.rng
                      standin.rows_data standin.rows_world))
        (λ '(train, valid, tests),
           Ok (map df_smiles train, map df_smiles valid, map df_smiles tests))
  = Ok (["CCO"; "C"], ["CCO"], ["c1ccccc1"]).
Proof. vm_compute. reflexivity. Qed.

Lemma prepare_dataset_partition_witness :
  ∃ train valid tests,
    frames_of (@prepare_dataset standin.rdkit standin.rng
                 standin.rows_data standin.rows_world) = Ok (train, valid, tests)
    ∧ ∃ (df : DataFrame) (ptrain pvalid ptests : list (nat * Row)),
        length df = 5
        ∧ train = ptrain.*2 ∧ valid = pvalid.*2 ∧ tests = ptests.*2
        ∧ ptrain `sublist_of` enumerate df
        ∧ pvalid `sublist_of` enumerate df
        ∧ ptests `sublist_of` enumerate df.
Proof.
  eexists _, _, _. split; [vm_compute; reflexivity|].
  destruct (@prepare_dataset_partition standin.rdkit standin.rng
              standin.rows_data standin.rows_world _ _ _ eq_refl)
    as (df & ptrain & pvalid & ptests & _ & Hlen & _ & Htr & Hva & Hte
        & Str & Sva & Ste & _).
  exists df, ptrain, pvalid, ptests.
  split; [exact Hlen|]. split; [exact Htr|]. split; [exact Hva|].
  split; [exact Hte|]. split; [exact Str|]. split; [exact Sva|exact Ste].
Defined.

Lemma prepare_dataset_reproducible_witness :
  let once := @prepare_dataset standin.rdkit standin.rng
                standin.rows_data standin.rows_world in
  frames_of once
  = frames_of (@prepare_dataset standin.rdkit standin.rng standin.rows_data once.2).
Proof.
  apply (@prepare_dataset_reproducible standin.rdkit standin.rng).
  intros mol Hin. unfold standin.rows_data in Hin.
  repeat (apply elem_of_cons in Hin as [->|Hin]; [vm_compute; reflexivity|]).
  by apply elem_of_nil in Hin.
Defined.

Lemma frame_index_follows_samples_witness :
  ∃ df, (@build_frame standin.rdkit standin.rows_data standin.rows_world).1 = Ok df
        ∧ length df = 5
        ∧ map df_smiles df = ["CCO"; "CCO"; "CCN"; "c1ccccc1"; "C"].
Proof.
  eexists. split; [vm_compute; reflexivity|].
  destruct (@frame_index_follows_samples standin.rdkit
              standin.rows_data standin.rows_world _ eq_refl) as (Hlen & Hsm & _).
  split; [exact Hlen|exact Hsm].
Defined.

(** C9 as stated fails: two samples with the same structure string give two
    rows with the same key. *)
Lemma frame_keys_not_unique :
  match (@build_frame standin.rdkit standin.rows_data standin.rows_world).1 with
  | Ok df => ¬ NoDup (map df_smiles df)
  | Raise _ => False
  end.
Proof.
  vm_compute. intros Hnd. inversion Hnd as [|?? Hnotin _]; subst.
  apply Hnotin. by left.
Qed.

(** ** Metrics *)

Ltac frame_steps :=
  repeat first
    [ apply read_only_bind; [|intros ?]
    | match goal with |- read_only (match ?x with _ => _ end) => destruct x end
    | solve [auto with frame] ].

Lemma read_only_compute_metrics (model df : loc) (threshold : float) :
  read_only (compute_metrics model df threshold).
Proof. unfold compute_metrics. frame_steps. Qed.

(** C8.  Computing the metrics table reads the model and the row table and
    writes nothing: whatever the model, the table and the threshold, and
    whether the call returns or raises, the heap (the row table and the
    model in it included) and the log switch are afterwards exactly what
    they were. *)
Theorem compute_metrics_mutates_nothing (model df : loc) (threshold : float)
    (w : world) :
  (compute_metrics model df threshold w).2 = w.
Proof. apply read_only_compute_metrics. Qed.

Lemma SFltb_irrefl (p : float) : SFltb p p = false.
Proof.
  destruct p as [[]|[]| |[] m e]; try done; unfold SFltb, SFcompare;
    rewrite Z.compare_refl, Pos.compare_cont_refl; done.
Qed.

Lemma read_model_ok (l : loc) (m : CatBoostModel) (w : world) :
  heap w !! l = Some (OModel m) → read_model l w = (Ok m, w).
Proof. intros Hl. unfold read_model. by rewrite Hl. Qed.

Lemma read_frame_ok (l : loc) (df : DataFrame) (w : world) :
  heap w !! l = Some (OFrame df) → read_frame l w = (Ok df, w).
Proof. intros Hl. unfold read_frame. by rewrite Hl. Qed.

(** The library's binary target of a label column that it accepts. *)
Lemma binary_target_spec (y_true : list float) (t : list bool) :
  sklearn.binary_target y_true = Ok t →
  t = map (λ y, eqb y f64_one) y_true.
Proof.
  unfold sklearn.binary_target. revert t.
  induction y_true as [|y ys IH]; intros t; cbn [rmap map].
  - by intros [= <-].
  - unfold sklearn.as_class at 1.
    destruct (eqb y f64_one) eqn:H1.
    + cbn [rbind]. destruct (rmap sklearn.as_class ys) as [bs|]; [|done].
      cbn [rbind]. intros [= <-]. by rewrite (IH bs).
    + destruct (eqb y f64_zero); [|done].
      cbn [rbind]. destruct (rmap sklearn.as_class ys) as [bs|]; [|done].
      cbn [rbind]. intros [= <-]. by rewrite (IH bs).
Qed.

(** The confusion counts the metric routines take over the pairs (true
    class, binary prediction) are those of the table at the threshold. *)
Lemma count_pairs_confusion (threshold : float) (p : bool → bool → bool)
    (actual predicted : bool) (labels probs : list float) :
  (∀ a b, p a b = Bool.eqb a actual && Bool.eqb b predicted) →
  sklearn.count_pairs p (map (λ y, eqb y f64_one) labels)
                      (predict_labels probs threshold)
  = confusion_count threshold actual predicted labels probs.
Proof.
  intros Hp.
  unfold sklearn.count_pairs, confusion_count, predict_labels, np_gt, gt.
  revert probs. induction labels as [|y ys IH]; intros [|q qs]; try done.
  cbn [map zip_with].
  destruct (p (eqb y f64_one) (SFltb threshold q)) eqn:E.
  - rewrite (filter_cons_True (λ tp : bool * bool, p tp.1 tp.2 = true)) by done.
    rewrite filter_cons_True by (cbn [fst snd]; by rewrite <- Hp).
    cbn [length]. f_equal. apply IH.
  - rewrite (filter_cons_False (λ tp : bool * bool, p tp.1 tp.2 = true))
      by (cbn [fst snd]; congruence).
    rewrite filter_cons_False by (cbn [fst snd]; rewrite <- Hp; congruence).
    apply IH.
Qed.

Lemma np_stack_ok {A} (arrays X : list (list A)) :
  np_stack arrays = Ok X → X = arrays.
Proof.
  unfold np_stack. destruct arrays as [|a rest]; [done|].
  destruct (forallb _ rest); [|done]. by intros [= <-].
Qed.

Lemma lift_ok_inv {A} (r : result A) (a : A) (w w' : world) :
  lift r w = (Ok a, w') → r = Ok a ∧ w' = w.
Proof. unfold lift. destruct r; [|done]. by intros [= <- <-]. Qed.

(** The four threshold metrics [compute_metrics] reports, whenever it
    returns: those of the confusion counts of the table at the
    threshold. *)
Lemma compute_metrics_counts (model df : loc) (m : CatBoostModel)
    (rows : DataFrame) (threshold : float) (t : Metrics) (w w' : world) :
  heap w !! model = Some (OModel m) →
  heap w !! df = Some (OFrame rows) →
  compute_metrics model df threshold w = (Ok t, w') →
  let labels := map df_y rows in
  let probs := map snd (predict_proba m (map df_x rows)) in
  let TP := confusion_count threshold true true labels probs in
  let FP := confusion_count threshold false true labels probs in
  let FN := confusion_count threshold true false labels probs in
  let TN := confusion_count threshold false false labels probs in
  length probs = length rows
  ∧ accuracy t = ratio (TP + TN) (length rows)
  ∧ recall t = sklearn.guarded_ratio TP (TP + FN)
  ∧ precision t = sklearn.guarded_ratio TP (TP + FP)
  ∧ f1 t = sklearn.guarded_ratio (2 * TP) (2 * TP + FP + FN).
Proof.
  intros Hm Hdf Hrun labels probs TP FP FN TN.
  unfold compute_metrics in Hrun.
  rewrite (bind_step _ _ _ _ _ (read_model_ok _ _ _ Hm)) in Hrun.
  rewrite (bind_step _ _ _ _ _ (read_frame_ok _ _ _ Hdf)) in Hrun.
  apply bind_ok_inv in Hrun as (X & w1 & HX & Hrun).
  apply lift_ok_inv in HX as [HX ->]. apply np_stack_ok in HX as ->.
  cbv zeta in Hrun. fold labels probs in Hrun.
  apply bind_ok_inv in Hrun as ([precisions recalls] & w1 & Hprc & Hrun).
  apply lift_ok_inv in Hprc as [Hprc ->].
  apply bind_ok_inv in Hrun as (acc & w1 & Hacc & Hrun).
  apply lift_ok_inv in Hacc as [Hacc ->].
  apply bind_ok_inv in Hrun as (rec & w1 & Hrec & Hrun).
  apply lift_ok_inv in Hrec as [Hrec ->].
  apply bind_ok_inv in Hrun as (prec & w1 & Hprec & Hrun).
  apply lift_ok_inv in Hprec as [Hprec ->].
  apply bind_ok_inv in Hrun as (f1v & w1 & Hf1 & Hrun).
  apply lift_ok_inv in Hf1 as [Hf1 ->].
  apply bind_ok_inv in Hrun as (roc & w1 & Hroc & Hrun).
  apply lift_ok_inv in Hroc as [Hroc ->].
  apply bind_ok_inv in Hrun as (pr & w1 & Hpr & Hrun).
  apply lift_ok_inv in Hpr as [Hpr ->].
  injection Hrun as <- <-. cbn [accuracy recall precision f1].
  unfold sklearn.accuracy_score, sklearn.recall_score, sklearn.precision_score,
    sklearn.f1_score, sklearn.check_consistent_length in Hacc, Hrec, Hprec, Hf1.
  destruct (decide (length labels = length (predict_labels probs threshold)))
    as [Hlen|]; [|done].
  cbn [rbind] in Hacc, Hrec, Hprec, Hf1.
  destruct (sklearn.binary_target labels) as [tb|] eqn:Htb; [|done].
  cbn [rbind] in Hacc, Hrec, Hprec, Hf1.
  apply binary_target_spec in Htb as ->.
  unfold sklearn.tp, sklearn.fp, sklearn.fn, sklearn.tn in Hacc, Hrec, Hprec, Hf1.
  rewrite (count_pairs_confusion threshold _ true true) in Hacc, Hrec, Hprec, Hf1
    by by intros [] [].
  rewrite (count_pairs_confusion threshold _ false true) in Hprec, Hf1
    by by intros [] [].
  rewrite (count_pairs_confusion threshold _ true false) in Hrec, Hf1
    by by intros [] [].
  rewrite (count_pairs_confusion threshold _ false false) in Hacc
    by by intros [] [].
  fold TP FP FN TN in Hacc, Hrec, Hprec, Hf1.
  injection Hacc as <-. injection Hrec as <-. injection Hprec as <-.
  injection Hf1 as <-.
  unfold predict_labels, np_gt in Hlen. unfold labels in Hlen.
  rewrite !length_map in Hlen.
  split; [done|]. unfold labels. by rewrite !length_map.
Qed.

(** C7.  [compute_metrics] counts a row as predicted positive exactly when
    its predicted probability is strictly above the threshold (a
    probability equal to the threshold is negative): whenever it returns,
    accuracy, recall, precision and f1 are those of the confusion counts
    taken that way.  On a table of ten rows with true labels
    1,0,1,0,1,0,1,0,1,0 whose predicted probabilities are 0.9, 0.1, 0.8,
    0.2, 0.7, 0.3, 0.6, 0.4, 0.55, 0.45, at threshold 0.5, the metrics
    table is returned with accuracy, recall, precision and f1 all equal to
    1; on the same table at threshold 0.8 the row whose probability is 0.8
    is negative, and recall is 1/5. *)
Theorem compute_metrics_threshold_scenario :
  (∀ (pred_probs : list float) (threshold : float) (i : nat) (p : float),
     pred_probs !! i = Some p →
     (predict_labels pred_probs threshold !! i = Some true ↔ SFltb threshold p = true)
     ∧ predict_labels [threshold] threshold = [false])
  ∧ (∀ (w w' : world) (model df : loc) (m : CatBoostModel) (rows : DataFrame)
       (threshold : float) (t : Metrics),
       heap w !! model = Some (OModel m) →
       heap w !! df = Some (OFrame rows) →
       compute_metrics model df threshold w = (Ok t, w') →
       let labels := map df_y rows in
       let probs := map snd (predict_proba m (map df_x rows)) in
       let TP := confusion_count threshold true true labels probs in
       let FP := confusion_count threshold false true labels probs in
       let FN := confusion_count threshold true false labels probs in
       let TN := confusion_count threshold false false labels probs in
       length probs = length rows
       ∧ accuracy t = ratio (TP + TN) (length rows)
       ∧ recall t = sklearn.guarded_ratio TP (TP + FN)
       ∧ precision t = sklearn.guarded_ratio TP (TP + FP)
       ∧ f1 t = sklearn.guarded_ratio (2 * TP) (2 * TP + FP + FN))
  ∧ (∀ (w : world) (model df : loc) (m : CatBoostModel) (rows : DataFrame)
       (X : list (list Z)),
       heap w !! model = Some (OModel m) →
       heap w !! df = Some (OFrame rows) →
       map df_y rows = toy_labels →
       np_stack (map df_x rows) = Ok X →
       map snd (predict_proba m X) = toy_probs →
       (∃ t, compute_metrics model df f64_0_5 w = (Ok t, w)
             ∧ (accuracy t == 1)%Q ∧ (recall t == 1)%Q
             ∧ (precision t == 1)%Q ∧ (f1 t == 1)%Q)
       ∧ (∃ t, compute_metrics model df f64_0_8 w = (Ok t, w)
               ∧ (accuracy t == 3 # 5)%Q ∧ (recall t == 1 # 5)%Q
               ∧ (precision t == 1)%Q ∧ (f1 t == 1 # 3)%Q)).
Proof.
  split; [|split].
  - intros pred_probs threshold i p Hp. split.
    + unfold predict_labels, np_gt. rewrite map_lookup, Hp. simpl.
      unfold gt. split; [by intros [= ->]|by intros ->].
    + unfold predict_labels, np_gt, gt. simpl. by rewrite SFltb_irrefl.
  - intros w w' model df m rows threshold t Hm Hdf Hrun.
    by apply (compute_metrics_counts model df m rows threshold t w w').
  - intros w model df m rows X Hm Hdf Hy HX Hp.
    assert (Hrun : ∀ threshold,
              compute_metrics model df threshold w
              = (let pred := predict_labels toy_probs threshold in
                 '(precisions, recalls) ←
                   lift (sklearn.precision_recall_curve toy_labels toy_probs);
                 accuracy ← lift (sklearn.accuracy_score toy_labels pred);
                 recall ← lift (sklearn.recall_score toy_labels pred);
                 precision ← lift (sklearn.precision_score toy_labels pred);
                 f1 ← lift (sklearn.f1_score toy_labels pred);
                 roc_auc ← lift (sklearn.roc_auc_score toy_labels toy_probs);
                 pr_auc ← lift (sklearn.auc recalls precisions);
                 ret (mkMetrics accuracy recall precision f1 roc_auc pr_auc)) w).
    { intros threshold. unfold compute_metrics.
      rewrite (bind_step _ _ _ _ _ (read_model_ok _ _ _ Hm)).
      rewrite (bind_step _ _ _ _ _ (read_frame_ok _ _ _ Hdf)).
      rewrite HX, (bind_step (lift (Ok X)) _ w _ w eq_refl).
      cbv zeta. by rewrite Hp, Hy. }
    split.
    + rewrite Hrun. eexists. split; [vm_compute; reflexivity|]. by vm_compute.
    + rewrite Hrun. eexists. split; [vm_compute; reflexivity|]. by vm_compute.
Qed.

Lemma compute_metrics_threshold_scenario_witness :
  (predict_labels toy_probs f64_0_5 !! 8 = Some true ↔ SFltb f64_0_5 (d64 4953959590107546 (-53)) = true)
  ∧ (∃ t, compute_metrics 1%positive 2%positive f64_0_8 standin.toy_world
          = (Ok t, standin.toy_world)
          ∧ recall t
            = sklearn.guarded_ratio
                (confusion_count f64_0_8 true true toy_labels toy_probs)
                (confusion_count f64_0_8 true true toy_labels toy_probs
                 + confusion_count f64_0_8 true false toy_labels toy_probs)
          ∧ confusion_count f64_0_8 true true toy_labels toy_probs = 1
          ∧ confusion_count f64_0_8 true false toy_labels toy_probs = 4)
  ∧ ∃ t, compute_metrics 1%positive 2%positive f64_0_5 standin.toy_world
         = (Ok t, standin.toy_world)
         ∧ (accuracy t == 1)%Q ∧ (recall t == 1)%Q
         ∧ (precision t == 1)%Q ∧ (f1 t == 1)%Q.
Proof.
  destruct compute_metrics_threshold_scenario as (Hthr & Hcount & Hscen).
  split; [|split].
  - apply (Hthr toy_probs f64_0_5 8). reflexivity.
  - eexists. split; [vm_compute; reflexivity|].
    split; [|split; reflexivity].
    refine (proj1 (proj2 (proj2 (Hcount standin.toy_world standin.toy_world
                                   1%positive 2%positive standin.toy_model
                                   standin.toy_frame f64_0_8 _ eq_refl eq_refl _)))).
    vm_compute. reflexivity.
  - apply (Hscen standin.toy_world 1%positive 2%positive standin.toy_model
             standin.toy_frame (map df_x standin.toy_frame));
      reflexivity.
Defined.

(** ** Class weights *)

Lemma SFcompare_refl (c : float) : isnan c = false → SFcompare c c = Some Eq.
Proof.
  destruct c as [[]|[]| |[] m e]; try done; intros _; unfold SFcompare;
    rewrite Z.compare_refl, Pos.compare_cont_refl; done.
Qed.

Lemma eqb_refl (c : float) : isnan c = false → eqb c c = true.
Proof. intros Hc. unfold eqb, SFeqb. by rewrite SFcompare_refl. Qed.

Lemma np_unique_const (c : float) (y : list float) :
  isnan c = false → y ≠ [] → Forall (λ v, v = c) y → np_unique y = [c].
Proof.
  intros Hc Hne Hall. induction Hall as [|v y -> Hall IH]; [done|].
  simpl. destruct y as [|v' y'].
  - done.
  - fold (np_unique (v' :: y')). rewrite IH by done. simpl.
    by rewrite SFcompare_refl.
Qed.

Lemma count_of_const (c : float) (y : list float) :
  isnan c = false → Forall (λ v, v = c) y → count_of c y = length y.
Proof.
  intros Hc Hall. unfold count_of.
  induction Hall as [|v y -> Hall IH]; [done|].
  rewrite filter_cons_True by by apply eqb_refl. simpl. by rewrite IH.
Qed.

Lemma ratio_self (n : nat) : n ≠ 0 → (ratio n n == 1)%Q.
Proof.
  intros Hn. unfold ratio. apply Qmult_inv_r.
  intros Hz. unfold Qeq, inject_Z in Hz. simpl in Hz. lia.
Qed.

Lemma covers_const (c : float) (y : list float) :
  isnan c = false → y ≠ [] → Forall (λ v, v = c) y →
  forallb (λ v, existsb (eqb v) [c]) y && forallb (λ c', existsb (eqb c') y) [c] = true.
Proof.
  intros Hc Hne Hall. apply andb_true_iff. split.
  - induction Hall as [|v y -> Hall IH]; [done|].
    simpl. rewrite (eqb_refl c Hc). simpl.
    destruct y; [done|]. by apply IH.
  - destruct Hall as [|v y -> Hall]; [done|]. simpl. by rewrite (eqb_refl c Hc).
Qed.

(** The training cell, step by step, given the class weights: it raises
    what [np.stack] or the library's [fit] raises, leaving the world as it
    was, and otherwise stores the fitted model. *)
Lemma train_run `{CatBoost} (df_train df_valid : loc) (tr va : DataFrame)
    (weights : list Q) (w : world) :
  heap w !! df_train = Some (OFrame tr) →
  heap w !! df_valid = Some (OFrame va) →
  class_weights (map df_y tr) = Ok weights →
  train df_train df_valid w
  = match np_stack (map df_x tr) with
    | Ok X =>
        match fit weights X (map df_y tr) (map df_x va, map df_y va) with
        | Ok m => alloc (OModel m) w
        | Raise e => (Raise e, w)
        end
    | Raise e => (Raise e, w)
    end.
Proof.
  intros Htr Hva Hw. unfold train.
  rewrite (bind_step _ _ _ _ _ (read_frame_ok _ _ _ Htr)).
  rewrite Hw, (bind_step (lift (Ok weights)) _ w _ w eq_refl).
  destruct (np_stack (map df_x tr)) as [X|e] eqn:HX; [|done].
  rewrite (bind_step (lift (Ok X)) _ w _ w eq_refl).
  assert (Hy : np_stack_scalars (map df_y tr) = Ok (map df_y tr)).
  { destruct tr; [|done]. by vm_compute in HX. }
  rewrite Hy, (bind_step (lift (Ok (map df_y tr))) _ w _ w eq_refl).
  rewrite (bind_step _ _ _ _ _ (read_frame_ok _ _ _ Hva)).
  rewrite bind_unfold. unfold lift. by destruct (fit _ _ _ _).
Qed.




Lemma np_unique_binary (y : list float) :
  Forall is_binary64 y →
  (y = [] ∧ np_unique y = [])
  ∨ (f64_zero ∈ y ∧ ¬ (f64_one ∈ y) ∧ np_unique y = [f64_zero])
  ∨ (¬ (f64_zero ∈ y) ∧ f64_one ∈ y ∧ np_unique y = [f64_one])
  ∨ (f64_zero ∈ y ∧ f64_one ∈ y ∧ np_unique y = [f64_zero; f64_one]).
Proof.
  assert (Hne : f64_zero ≠ f64_one) by done.
  induction 1 as [|v y Hv Hall IH]; [by left|]. right.
  change (np_unique (v :: y)) with (insert_unique v (np_unique y)).
  destruct Hv as [->| ->];
    destruct IH as [[-> ->]|[(H0 & H1 & ->)|[(H0 & H1 & ->)|(H0 & H1 & ->)]]];
    simpl;
    rewrite ?elem_of_cons, ?elem_of_nil;
    first [ left; split_and!; [intuition congruence|intuition congruence|done]
          | right; left; split_and!; [intuition congruence|intuition congruence|done]
          | right; right; split_and!; [intuition congruence|intuition congruence|done] ].
Qed.

Lemma covers_binary (y : list float) :
  Forall is_binary64 y → f64_zero ∈ y → f64_one ∈ y →
  forallb (λ v, existsb (eqb v) [f64_zero; f64_one]) y
  && forallb (λ c, existsb (eqb c) y) [f64_zero; f64_one] = true.
Proof.
  intros Hall H0 H1. apply andb_true_iff. split.
  - clear H0 H1. induction Hall as [|v y [->| ->] Hall IH]; simpl; done.
  - assert (Hex : ∀ c, isnan c = false → c ∈ y → existsb (eqb c) y = true).
    { intros c Hc Hin. apply existsb_exists. exists c.
      split; [by apply list_elem_of_In|by apply eqb_refl]. }
    simpl. by rewrite !Hex.
Qed.

Lemma count_of_pos (c : float) (y : list float) :
  isnan c = false → c ∈ y → 0 < count_of c y.
Proof.
  intros Hc Hin. unfold count_of.
  induction y as [|v y IH]; [by apply elem_of_nil in Hin|].
  destruct (decide (eqb v c = true)).
  - rewrite filter_cons_True by done. simpl. lia.
  - rewrite filter_cons_False by done.
    apply elem_of_cons in Hin as [->|Hin]; [|by apply IH].
    by rewrite eqb_refl in *.
Qed.

Lemma ratio_nine (n k : nat) :
  0 < k → (ratio n (2 * k) == 9 * ratio n (2 * (9 * k)))%Q.
Proof.
  intros Hk. unfold ratio.
  rewrite !Nat2Z.inj_mul, !inject_Z_mult. simpl (Z.of_nat 2). simpl (Z.of_nat 9).
  assert (Hnz : ¬ (inject_Z (Z.of_nat k) == 0)%Q).
  { unfold Qeq, inject_Z. simpl. lia. }
  field. exact Hnz.
Qed.

(** C6.  For a training partition with labels 0.0 and 1.0, both present,
    there are two classes and the class weights are n_samples / (2 *
    n_samples_in_class) for class 0.0 and for class 1.0, in that order; on
    a partition with nine negatives for every positive the positive-class
    weight is 9 times the negative-class weight. *)
Theorem balanced_class_weights (y : list float) :
  Forall is_binary64 y → f64_zero ∈ y → f64_one ∈ y →
  let n_samples := length y in
  let n_neg := count_of f64_zero y in
  let n_pos := count_of f64_one y in
  np_unique y = [f64_zero; f64_one]
  ∧ class_weights y = Ok [ratio n_samples (2 * n_neg); ratio n_samples (2 * n_pos)]
  ∧ (n_neg = 9 * n_pos →
     (ratio n_samples (2 * n_pos) == 9 * ratio n_samples (2 * n_neg))%Q).
Proof.
  intros Hall H0 H1 n_samples n_neg n_pos.
  assert (Hu : np_unique y = [f64_zero; f64_one]).
  { destruct (np_unique_binary y Hall)
      as [[-> _]|[(_ & ? & _)|[(? & _ & _)|(_ & _ & ?)]]]; try done.
    by apply elem_of_nil in H0. }
  split; [done|]. split.
  - unfold class_weights, sklearn.compute_class_weight.
    rewrite Hu, covers_binary by done.
    destruct y as [|v vs]; [by apply elem_of_nil in H0|done].
  - intros ->. apply ratio_nine. by apply count_of_pos.
Qed.

Lemma balanced_class_weights_witness :
  let y := repeat f64_zero 9 ++ [f64_one] in
  class_weights y = Ok [ratio 10 (2 * 9); ratio 10 (2 * 1)]
  ∧ (ratio 10 (2 * 1) == 9 * ratio 10 (2 * 9))%Q.
Proof.
  destruct (balanced_class_weights (repeat f64_zero 9 ++ [f64_one]))
    as (_ & Hw & Hnine).
  - simpl. repeat (apply Forall_cons; split; [first [by left|by right]|]).
    apply Forall_nil_2.
  - simpl. by left.
  - simpl. do 9 right. by left.
  - split; [exact Hw|]. by apply Hnine.
Defined.

(** * Further properties *)

(** ** The fingerprint is the key vector *)

(** X1.  For a string that rdkit parses, the fingerprint has one component per
    key and component [i] is 1 exactly when key [i] is set: reading the
    components back as booleans gives rdkit's key vector again. *)
Theorem fingerprint_encodes_keys `{RDKit} (smiles : string) (mol : Mol) :
  MolFromSmiles smiles = Some mol →
  ∃ v, smiles2fingerprint smiles = Ok v
       ∧ length v = length (GenMACCSKeys mol)
       ∧ (∀ i b, GenMACCSKeys mol !! i = Some b →
                 v !! i = Some (if b : bool then 1 else 0)%Z)
       ∧ map (Z.eqb 1) v = GenMACCSKeys mol.
Proof.
  intros Hmol. unfold smiles2fingerprint. rewrite Hmol.
  eexists. split; [reflexivity|]. rewrite u1_sub_bits.
  split; [by rewrite length_map|]. split.
  - intros i b Hb. by rewrite map_lookup, Hb.
  - rewrite map_map. rewrite <- (map_id (GenMACCSKeys mol)) at 2.
    apply map_ext. by intros [].
Qed.

Lemma fingerprint_encodes_keys_witness :
  ∃ v, @smiles2fingerprint standin.rdkit "CCO" = Ok v
       ∧ length v = 167
       ∧ v !! 3 = Some 1%Z ∧ v !! 4 = Some 0%Z.
Proof.
  destruct (@fingerprint_encodes_keys standin.rdkit "CCO" "CCO" eq_refl)
    as (v & Hv & Hlen & Hbits & _).
  exists v. split; [exact Hv|]. split; [exact Hlen|]. split.
  - apply (Hbits 3 true). reflexivity.
  - apply (Hbits 4 false). reflexivity.
Defined.

(** ** Index bounds of the transforms *)

Lemma label_of_tox21_row (k : nat) (vs : list float) :
  label_of tox21 (Tensor [1; k] vs)
  = if decide (3 ≤ k)%nat then Ok (Tensor [] (take 1 (drop 2 vs)))
    else Raise IndexError.
Proof.
  unfold label_of, squeeze, getitem. cbn [shape data].
  destruct (decide (k = 1)) as [->|Hk].
  - done.
  - rewrite filter_cons_False by (intros ?; done).
    rewrite filter_cons_True by done. cbn [filter list_filter].
    repeat case_decide; try lia; done.
Qed.

Lemma label_of_clintox_row (k : nat) (vs : list float) :
  label_of clintox (Tensor [1; k] vs)
  = if decide (2 ≤ k)%nat then Ok (Tensor [] (take 1 vs))
    else Raise IndexError.
Proof.
  unfold label_of, squeeze, getitem. cbn [shape data].
  destruct (decide (k = 1)) as [->|Hk].
  - done.
  - rewrite filter_cons_False by (intros ?; done).
    rewrite filter_cons_True by done. cbn [filter list_filter].
    repeat case_decide; try lia; done.
Qed.

(** X2.  On a raw label of shape [1, k]: [transform_tox21] returns exactly when
    [k >= 3] and then labels the copy with the scalar at index 2;
    [transform_clintox] returns exactly when [k >= 2] and then labels the
    copy with the scalar at index 0; otherwise each raises [IndexError] (a
    single-task label is squeezed to zero dimensions and cannot be
    indexed).  In every case the input sample stays as it was. *)
Theorem indexed_transforms_bounds (smiles : string) (k : nat) (vs : list float)
    (sample : loc) (w : world) :
  heap w !! sample = Some (OData (mkData smiles (Tensor [1; k] vs))) →
  let out name := transforms name sample w in
  let new := fresh (dom (heap w)) in
  (if decide (3 ≤ k)%nat
   then (out tox21).1 = Ok new
        ∧ heap (out tox21).2 !! new
          = Some (OData (mkData smiles (Tensor [] (take 1 (drop 2 vs)))))
   else (out tox21).1 = Raise IndexError)
  ∧ (if decide (2 ≤ k)%nat
     then (out clintox).1 = Ok new
          ∧ heap (out clintox).2 !! new
            = Some (OData (mkData smiles (Tensor [] (take 1 vs))))
     else (out clintox).1 = Raise IndexError)
  ∧ heap (out tox21).2 !! sample = heap w !! sample
  ∧ heap (out clintox).2 !! sample = heap w !! sample.
Proof.
  intros Hs out new. unfold out.
  assert (Hne : new ≠ sample).
  { intros E. pose proof (fresh_heap_None w) as Hf. fold new in Hf.
    rewrite E in Hf. congruence. }
  rewrite !transforms_unfold, !(transform_with_spec _ _ _ _ Hs).
  cbn [mol_y mol_smiles]. rewrite label_of_tox21_row, label_of_clintox_row.
  fold new. rewrite Hs.
  repeat case_decide; cbn [fst snd heap];
    rewrite ?lookup_insert_eq, ?(lookup_insert_ne _ new sample) by done; done.
Qed.

Lemma indexed_transforms_bounds_witness :
  (transforms tox21 4%positive standin.raw_world).1 = Ok 5%positive
  ∧ (transforms clintox 1%positive standin.raw_world).1 = Raise IndexError.
Proof.
  pose proof (indexed_transforms_bounds "c1ccccc1" 12
                ([f32_zero; S754_nan; f32_one] ++ repeat f32_zero 9)
                4%positive standin.raw_world eq_refl) as (Htox & _).
  pose proof (indexed_transforms_bounds "CCO" 1 [f32_3_5]
                1%positive standin.raw_world eq_refl) as (_ & Hclin & _).
  split; [exact (proj1 Htox)|exact Hclin].
Defined.

(** ** What the map and the filter keep *)

Lemma get_datas_cons_data (h : gmap loc obj) (mol : loc) (d : Data) (rest : list loc) :
  h !! mol = Some (OData d) → get_datas h (mol :: rest) = d :: get_datas h rest.
Proof. intros Hm. unfold get_datas. simpl. by rewrite Hm. Qed.

Lemma get_datas_extends (w w' : world) (l : list loc) :
  extends w w' →
  (∀ mol, mol ∈ l → ∃ d, heap w !! mol = Some (OData d)) →
  get_datas (heap w') l = get_datas (heap w) l.
Proof.
  intros Hext. induction l as [|mol rest IH]; intros Hall; [done|].
  destruct (Hall mol) as [d Hd]; [by left|].
  rewrite (get_datas_cons_data _ _ d), (get_datas_cons_data _ _ d);
    [|done|by apply Hext].
  f_equal. apply IH. intros m Hm. apply Hall. by right.
Qed.

Lemma is_y_not_na_run (sample : loc) (d : Data) (w : world) :
  heap w !! sample = Some (OData d) →
  is_y_not_na sample w
  = (match data (mol_y d) with
     | [v] => Ok (negb (isnan v))
     | _ => Raise RuntimeError
     end, w).
Proof.
  intros Hs. unfold is_y_not_na.
  rewrite (bind_step _ _ _ _ _ (read_data_ok _ _ _ Hs)).
  unfold tensor_bool, torch_isnan. cbn [data].
  by destruct (data (mol_y d)) as [|v [|??]].
Qed.

(** The run of map and filter over samples that are all in the heap. *)
Lemma map_filter_run (name : dataset) (data0 : list loc) :
  ∀ (kept : list loc) (w w' : world),
  (∀ mol, mol ∈ data0 → ∃ d, heap w !! mol = Some (OData d)) →
  map_filter (transforms name) data0 w = (Ok kept, w') →
  extends w w'
  ∧ rdlog w' = rdlog w
  ∧ (∀ l, l ∈ kept → heap w !! l = None)
  ∧ get_datas (heap w') kept = omap (survivor name) (get_datas (heap w) data0)
  ∧ length (get_datas (heap w') kept) = length kept
  ∧ Forall (λ d, ∃ t v, label_of name (mol_y d) = Ok t ∧ data t = [v])
           (get_datas (heap w) data0).
Proof.
  induction data0 as [|sample rest IH]; intros kept w w' Hall Hrun.
  - injection Hrun as <- <-. split; [apply extends_refl|].
    repeat split; try done. by intros ? ?%elem_of_nil.
  - simpl in Hrun.
    apply bind_ok_inv in Hrun as (sample' & w1 & Ht & Hrun).
    apply bind_ok_inv in Hrun as (keep & w2 & Hk & Hrun).
    apply bind_ok_inv in Hrun as (kept0 & w3 & Hrest & Hrun).
    injection Hrun as <- <-.
    destruct (Hall sample) as (d & Hs); [by left|].
    rewrite transforms_unfold, (transform_with_spec _ _ _ _ Hs) in Ht.
    destruct (label_of name (mol_y d)) as [t|e] eqn:Hl; [|done].
    injection Ht as <- <-.
    set (new := fresh (dom (heap w))) in *.
    set (w1 := mkWorld _ _) in *.
    assert (Hnew : heap w !! new = None) by apply fresh_heap_None.
    assert (Hext1 : extends w w1).
    { intros l o Hlo. simpl. rewrite lookup_insert_ne; [done|].
      intros <-. congruence. }
    assert (Hd1 : heap w1 !! new = Some (OData (mkData (mol_smiles d) t)))
      by apply lookup_insert_eq.
    rewrite (is_y_not_na_run _ _ _ Hd1) in Hk. cbn [mol_y] in Hk.
    destruct (data t) as [|v [|??]] eqn:Hdt; try done.
    injection Hk as <- <-.
    destruct (IH kept0 w1 w3) as (Hext & Hlog & Hfree & Hkept & Hlen & Hshape);
      [|done|].
    { intros m Hm. destruct (Hall m) as [dm Hdm]; [by right|].
      exists dm. by apply Hext1. }
    rewrite (get_datas_extends w w1) in Hkept, Hshape;
      [|done|intros m Hm; apply Hall; by right
       |done|intros m Hm; apply Hall; by right].
    rewrite (get_datas_cons_data _ _ d) by done.
    assert (Hsurv : survivor name d
                    = if isnan v then None else Some (mkData (mol_smiles d) t)).
    { unfold survivor. by rewrite Hl, Hdt. }
    split; [by eapply extends_trans|]. split; [by rewrite Hlog|].
    split; [|split; [|split]].
    + intros l Hin. destruct (isnan v); cbn [negb] in Hin.
      * destruct (heap w !! l) as [o|] eqn:Hlo; [|done].
        apply Hext1 in Hlo. by rewrite (Hfree l Hin) in Hlo.
      * apply elem_of_cons in Hin as [->|Hin]; [done|].
        destruct (heap w !! l) as [o|] eqn:Hlo; [|done].
        apply Hext1 in Hlo. by rewrite (Hfree l Hin) in Hlo.
    + cbn [omap list_omap]. rewrite Hsurv.
      destruct (isnan v); cbn [negb]; [done|].
      rewrite (get_datas_cons_data _ _ (mkData (mol_smiles d) t)) by by apply Hext.
      by rewrite Hkept.
    + destruct (isnan v); cbn [negb]; [done|].
      rewrite (get_datas_cons_data _ _ (mkData (mol_smiles d) t)) by by apply Hext.
      cbn [length]. by rewrite Hlen.
    + constructor; [by exists t, v|done].
Qed.

(** X3.  The map and the filter of cell 3, run over samples of the heap: when
    they return, the kept samples are new objects, in the order of the
    input, one relabelled copy for every input sample whose extracted
    label is not NaN and none for the others; the input samples and
    everything else in the heap are unchanged. *)
Theorem map_filter_keeps_defined_labels (name : dataset) (data0 kept : list loc)
    (w w' : world) :
  (∀ mol, mol ∈ data0 → ∃ d, heap w !! mol = Some (OData d)) →
  map_filter (transforms name) data0 w = (Ok kept, w') →
  get_datas (heap w') kept = omap (survivor name) (get_datas (heap w) data0)
  ∧ length (get_datas (heap w') kept) = length kept
  ∧ (∀ l, l ∈ kept → heap w !! l = None)
  ∧ extends w w'.
Proof.
  intros Hall Hrun.
  destruct (map_filter_run name data0 kept w w' Hall Hrun)
    as (Hext & _ & Hfree & Hkept & Hlen & _).
  done.
Qed.

Lemma map_filter_keeps_defined_labels_witness :
  ∃ w', map_filter (transforms tox21) [3%positive; 4%positive] standin.raw_world
        = (Ok [6%positive], w')
      ∧ get_datas (heap w') [6%positive]
        = [mkData "c1ccccc1" (Tensor [] [f32_one])].
Proof.
  eexists. split; [vm_compute; reflexivity|].
  refine (proj1 (map_filter_keeps_defined_labels tox21 [3%positive; 4%positive]
                   [6%positive] standin.raw_world _ _ _)).
  - intros mol Hin.
    apply elem_of_cons in Hin as [->|Hin];
      [|apply elem_of_cons in Hin as [->|Hin]; [|by apply elem_of_nil in Hin]];
      eexists; reflexivity.
  - vm_compute. reflexivity.
Defined.

Lemma survivor_lipo (d : Data) (t : tensor float) (v : float) :
  label_of lipo (mol_y d) = Ok t → data t = [v] →
  survivor lipo d
  = Some (mkData (mol_smiles d) (squeeze (tensor_float (tensor_gt (mol_y d) f32_3_5)))).
Proof.
  intros Hl Hdt. unfold survivor. rewrite Hl, Hdt.
  injection Hl as <-. simpl in Hdt.
  destruct (data (mol_y d)) as [|u [|??]]; simplify_eq/=.
  by destruct (gt u f32_3_5).
Qed.

(** X4.  On the thresholded dataset the filter never drops a sample: when the
    map and the filter return, there is one kept sample per input sample,
    labelled [(y > 3.5).float().squeeze()]; an undefined raw value is not
    above 3.5 and so is kept with the label 0.0. *)
Theorem lipo_filter_keeps_all (data0 kept : list loc) (w w' : world) :
  (∀ mol, mol ∈ data0 → ∃ d, heap w !! mol = Some (OData d)) →
  map_filter transform_lipo data0 w = (Ok kept, w') →
  length kept = length data0
  ∧ get_datas (heap w') kept
    = map (λ d, mkData (mol_smiles d)
                  (squeeze (tensor_float (tensor_gt (mol_y d) f32_3_5))))
          (get_datas (heap w) data0)
  ∧ label_of lipo (Tensor [1; 1] [S754_nan]) = Ok (Tensor [] [f32_zero]).
Proof.
  intros Hall Hrun.
  destruct (map_filter_run lipo data0 kept w w' Hall Hrun)
    as (_ & _ & _ & Hkept & Hlen & Hshape).
  assert (Hds : length (get_datas (heap w) data0) = length data0).
  { clear -Hall. induction data0 as [|mol rest IH]; [done|].
    destruct (Hall mol) as [d Hd]; [by left|].
    rewrite (get_datas_cons_data _ _ d) by done. simpl. f_equal.
    apply IH. intros m Hm. apply Hall. by right. }
  assert (Hmap : omap (survivor lipo) (get_datas (heap w) data0)
                 = map (λ d, mkData (mol_smiles d)
                               (squeeze (tensor_float (tensor_gt (mol_y d) f32_3_5))))
                       (get_datas (heap w) data0)).
  { clear -Hshape. induction Hshape as [|d ds (t & v & Hl & Hdt) _ IH]; [done|].
    cbn [omap list_omap map]. by rewrite (survivor_lipo d t v), IH. }
  rewrite Hmap in Hkept. split; [|split; [done|done]].
  by rewrite <- Hlen, Hkept, length_map.
Qed.

Lemma lipo_filter_keeps_all_witness :
  ∃ kept w', map_filter transform_lipo [1%positive; 2%positive] standin.raw_world
             = (Ok kept, w')
           ∧ length kept = 2.
Proof.
  eexists _, _. split; [vm_compute; reflexivity|].
  refine (proj1 (lipo_filter_keeps_all [1%positive; 2%positive] _
                   standin.raw_world _ _ _)).
  - intros mol Hin.
    apply elem_of_cons in Hin as [->|Hin];
      [|apply elem_of_cons in Hin as [->|Hin]; [|by apply elem_of_nil in Hin]];
      eexists; reflexivity.
  - vm_compute. reflexivity.
Defined.

(** ** The checks after the filter *)

Local Open Scope nat_scope.

Section check_facts.
Variable isclose : float → float → bool.

Lemma check_loop_outcome (series : list Data) (fuel : nat) :
  ∀ i, i ≤ length series →
  match check_loop isclose series i fuel with
  | Checked =>
      i + fuel ≤ length series
      ∧ ∀ j s, i ≤ j < i + fuel → series !! j = Some s →
               sample_asserts isclose s = true
  | KeyError_at j =>
      j = length series ∧ j < i + fuel
      ∧ ∀ j' s, i ≤ j' → series !! j' = Some s → sample_asserts isclose s = true
  | AssertionError_at j =>
      i ≤ j < i + fuel
      ∧ (∃ s, series !! j = Some s ∧ sample_asserts isclose s = false)
      ∧ ∀ j' s, i ≤ j' < j → series !! j' = Some s →
                sample_asserts isclose s = true
  end.
Proof.
  induction fuel as [|fuel IH]; intros i Hi; simpl.
  - split; [lia|]. intros j s Hj. lia.
  - destruct (series !! i) as [s|] eqn:Hsi.
    + destruct (sample_asserts isclose s) eqn:Hs.
      * apply lookup_lt_Some in Hsi as Hlt.
        specialize (IH (S i) Hlt).
        assert (Hhere : ∀ s', series !! i = Some s' →
                              sample_asserts isclose s' = true) by (intros; congruence).
        destruct (check_loop isclose series (S i) fuel) as [|j|j].
        -- destruct IH as [Hlen Hall]. split; [lia|].
           intros j s' Hj Hjs. destruct (decide (j = i)) as [->|]; [eauto|].
           apply (Hall j); [lia|done].
        -- destruct IH as (-> & Hj & Hall). split; [done|]. split; [lia|].
           intros j' s' Hj' Hjs. destruct (decide (j' = i)) as [->|]; [eauto|].
           apply (Hall j'); [lia|done].
        -- destruct IH as (Hj & Hbad & Hall). split; [lia|]. split; [done|].
           intros j' s' Hj' Hjs. destruct (decide (j' = i)) as [->|]; [eauto|].
           apply (Hall j'); [lia|done].
      * split; [lia|]. split; [by exists s|]. intros j' s' Hj'. lia.
    + apply lookup_ge_None in Hsi.
      split; [lia|]. split; [lia|].
      intros j' s' Hj' Hjs. apply lookup_lt_Some in Hjs. lia.
Qed.

(** X5.  The check loop of cell 3 passes only on a series of at least one
    hundred samples whose first hundred all satisfy the assertions.  On a
    shorter series whose samples all satisfy them it raises [KeyError] at
    the index equal to the length of the series; otherwise it raises
    [AssertionError] at the first sample that fails. *)
Theorem check_first_100_outcome (series : list Data) :
  match check_first_100 isclose series with
  | Checked =>
      100 ≤ length series
      ∧ ∀ j s, j < 100 → series !! j = Some s → sample_asserts isclose s = true
  | KeyError_at j =>
      j = length series ∧ length series < 100
      ∧ Forall (λ s, sample_asserts isclose s = true) series
  | AssertionError_at j =>
      j < 100
      ∧ (∃ s, series !! j = Some s ∧ sample_asserts isclose s = false)
      ∧ ∀ j' s, j' < j → series !! j' = Some s → sample_asserts isclose s = true
  end.
Proof.
  pose proof (check_loop_outcome series 100 0 (Nat.le_0_l _)) as Hout.
  unfold check_first_100.
  destruct (check_loop isclose series 0 100) as [|j|j].
  - destruct Hout as [Hlen Hall]. split; [lia|].
    intros j s Hj. apply Hall. lia.
  - destruct Hout as (-> & Hj & Hall). split; [done|]. split; [lia|].
    apply Forall_lookup. intros j s. apply Hall. lia.
  - destruct Hout as (Hj & Hbad & Hall). split; [lia|]. split; [done|].
    intros j' s Hj'. apply Hall. lia.
Qed.

Lemma check_loop_prefix (series1 series2 : list Data) (n fuel : nat) :
  ∀ i, i + fuel ≤ n → take n series1 = take n series2 →
  check_loop isclose series1 i fuel = check_loop isclose series2 i fuel.
Proof.
  induction fuel as [|fuel IH]; intros i Hi Htake; [done|]. simpl.
  assert (Hlook : series1 !! i = series2 !! i).
  { rewrite <- (lookup_take_lt series1 n i), <- (lookup_take_lt series2 n i) by lia.
    by rewrite Htake. }
  rewrite Hlook. destruct (series2 !! i) as [s|]; [|done].
  destruct (sample_asserts isclose s); [|done].
  apply IH; [lia|done].
Qed.

(** X6.  The check loop inspects the first hundred samples only: two series
    with the same first hundred samples have the same outcome, whatever the
    labels of the samples that follow. *)
Theorem check_first_100_ignores_rest (series1 series2 : list Data) :
  take 100 series1 = take 100 series2 →
  check_first_100 isclose series1 = check_first_100 isclose series2.
Proof. intros Htake. by apply (check_loop_prefix _ _ 100). Qed.
End check_facts.

Lemma check_first_100_ignores_rest_witness :
  let good := mkData "C" (Tensor [] [f32_one]) in
  let bad := mkData "N" (Tensor [] [S754_nan]) in
  check_first_100 eqb (repeat good 100 ++ [bad])
  = check_first_100 eqb (repeat good 100).
Proof.
  apply (check_first_100_ignores_rest eqb). reflexivity.
Defined.

(** ** More on [prepare_dataset] *)

Lemma rmap_is_ok {A B} (f : A → result B) (l : list A) :
  is_ok (rmap f l) = true ↔ ∀ a, a ∈ l → is_ok (f a) = true.
Proof.
  induction l as [|a l IH]; simpl.
  - split; [by intros _ ? ?%elem_of_nil|done].
  - split.
    + intros Hok a' Ha'. destruct (f a) as [b|] eqn:Hfa; [|done]. simpl in Hok.
      destruct (rmap f l) as [bs|]; [|done].
      apply elem_of_cons in Ha' as [->|Ha']; [by rewrite Hfa|].
      by apply IH.
    + intros Hall. pose proof (Hall a (list_elem_of_here _ _)) as Ha.
      destruct (f a) as [b|]; [|done]. simpl.
      assert (Hl : is_ok (rmap f l) = true).
      { apply IH. intros a' Ha'. apply Hall. by right. }
      by destruct (rmap f l).
Qed.

Lemma rmap_lookup {A B} (f : A → result B) (l : list A) (l' : list B) (i : nat) (a : A) :
  rmap f l = Ok l' → l !! i = Some a → ∃ b, l' !! i = Some b ∧ f a = Ok b.
Proof.
  revert l' i. induction l as [|a0 l IH]; intros l' i Hmap Hi; [done|].
  simpl in Hmap. destruct (f a0) as [b0|] eqn:Hf; [|done]. simpl in Hmap.
  destruct (rmap f l) as [bs|] eqn:Hbs; [|done]. injection Hmap as <-.
  destruct i as [|i]; simpl in *.
  - injection Hi as <-. eauto.
  - by apply IH.
Qed.

Lemma make_frame_lookup (smiles : list string) (x : list (list Z)) (y : list float)
    (i : nat) (s : string) (a : list Z) (v : float) :
  smiles !! i = Some s → x !! i = Some a → y !! i = Some v →
  make_frame smiles x y !! i = Some (mkRow s a v).
Proof.
  revert x y i. induction smiles as [|s0 smiles IH]; intros [|a0 x] [|v0 y] [|i];
    simpl; try done.
  - by intros [= ->] [= ->] [= ->].
  - apply IH.
Qed.

Lemma length_select {A B} (p : A → bool) (us : list A) (rows : list B) :
  length us = length rows →
  length (select (map p us) rows) = length (filter (λ u, p u = true) us).
Proof.
  revert rows. induction us as [|u us IH]; intros [|r rows]; simpl; try done.
  intros [= Hlen]. destruct (p u) eqn:Hp.
  - rewrite filter_cons_True by done. simpl. by rewrite IH.
  - rewrite filter_cons_False by congruence. by apply IH.
Qed.

(** Every draw that is not NaN falls in exactly one of: below 0.8, from
    0.8 up to but excluding 0.9, exactly 0.9, above 0.9. *)
Lemma draw_cases (u : float) :
  isnan u = false →
  (lt u f64_0_8 = true ∧ lt u f64_0_9 && ge u f64_0_8 = false
   ∧ gt u f64_0_9 = false ∧ eqb u f64_0_9 = false)
  ∨ (lt u f64_0_8 = false ∧ lt u f64_0_9 && ge u f64_0_8 = true
     ∧ gt u f64_0_9 = false ∧ eqb u f64_0_9 = false)
  ∨ (lt u f64_0_8 = false ∧ lt u f64_0_9 && ge u f64_0_8 = false
     ∧ gt u f64_0_9 = true ∧ eqb u f64_0_9 = false)
  ∨ (lt u f64_0_8 = false ∧ lt u f64_0_9 && ge u f64_0_8 = false
     ∧ gt u f64_0_9 = false ∧ eqb u f64_0_9 = true).
Proof.
  destruct u as [[]|[]| |[] m e]; try done; intros _;
    try (by left); try (by right; right; left).
  unfold lt, gt, ge, eqb, SFltb, SFleb, SFeqb, SFcompare, f64_0_8, f64_0_9.
  rewrite ?Pos.compare_cont_spec. unfold Pos.switch_Eq.
  destruct (Z.compare_spec e (-53)); destruct (Z.compare_spec (-53) e);
    try lia; try (by left); try (by right; right; left).
  destruct (Pos.compare_spec m 7205759403792794);
    destruct (Pos.compare_spec 7205759403792794 m);
    destruct (Pos.compare_spec m 8106479329266893);
    destruct (Pos.compare_spec 8106479329266893 m);
    try (by left); try (by right; left); try (by right; right; left);
    try (by right; right; right);
    exfalso; pos_to_Z; lia.
Qed.

Lemma count_four_way {A} (p1 p2 p3 p4 : A → bool) (us : list A) :
  Forall (λ u, (p1 u = true ∧ p2 u = false ∧ p3 u = false ∧ p4 u = false)
               ∨ (p1 u = false ∧ p2 u = true ∧ p3 u = false ∧ p4 u = false)
               ∨ (p1 u = false ∧ p2 u = false ∧ p3 u = true ∧ p4 u = false)
               ∨ (p1 u = false ∧ p2 u = false ∧ p3 u = false ∧ p4 u = true)) us →
  length (filter (λ u, p1 u = true) us) + length (filter (λ u, p2 u = true) us)
  + length (filter (λ u, p3 u = true) us) + length (filter (λ u, p4 u = true) us)
  = length us.
Proof.
  induction 1 as [|u us Hu _ IH]; [done|].
  destruct Hu as [(H1 & H2 & H3 & H4)|[(H1 & H2 & H3 & H4)|[(H1 & H2 & H3 & H4)
                 |(H1 & H2 & H3 & H4)]]];
    repeat first [ rewrite filter_cons_True by done
                 | rewrite filter_cons_False by congruence ];
    simpl; lia.
Qed.

Section prepare_more.
Context `{RDKit} `{NumpyRandom}.

(** A successful call, in full: the three frames are allocated one after
    the other at fresh locations and the log is switched back on. *)
Lemma prepare_dataset_ok (data0 : list loc) (w : world) (df : DataFrame) :
  frame_of_heap (heap w) data0 = Ok df →
  let n := length data0 in
  let l1 := fresh (dom (heap w)) in
  let h1 := <[l1 := OFrame (select (mask_train n) df)]> (heap w) in
  let l2 := fresh (dom h1) in
  let h2 := <[l2 := OFrame (select (mask_valid n) df)]> h1 in
  let l3 := fresh (dom h2) in
  let h3 := <[l3 := OFrame (select (mask_tests n) df)]> h2 in
  prepare_dataset data0 w = (Ok (l1, l2, l3), mkWorld h3 true).
Proof.
  intros Hdf n l1 h1 l2 h2 l3 h3. unfold prepare_dataset.
  rewrite (bind_step RDLogger_DisableLog _ w tt (mkWorld (heap w) false) eq_refl).
  rewrite bind_unfold, build_frame_spec. simpl heap. rewrite Hdf.
  rewrite (bind_step RDLogger_EnableLog _ (mkWorld (heap w) false) tt
             (mkWorld (heap w) true) eq_refl).
  apply frame_of_heap_inv in Hdf as [Hlen _].
  destruct (length_masks (length data0)) as (Htr & Hva & Hte).
  fold (mask_train (length data0)) (mask_valid (length data0))
       (mask_tests (length data0)). fold n in Htr, Hva, Hte, Hlen |- *.
  assert (Hiloc : ∀ mask, length mask = n → iloc df mask = Ok (select mask df)).
  { intros mask Hm. unfold iloc. by rewrite decide_True by congruence. }
  rewrite !Hiloc by done.
  rewrite (bind_step (lift (Ok _)) _ (mkWorld (heap w) true) _ _ eq_refl).
  rewrite (bind_step (alloc _) _ (mkWorld (heap w) true) l1 (mkWorld h1 true) eq_refl).
  rewrite (bind_step (lift (Ok _)) _ (mkWorld h1 true) _ _ eq_refl).
  rewrite (bind_step (alloc _) _ (mkWorld h1 true) l2 (mkWorld h2 true) eq_refl).
  rewrite (bind_step (lift (Ok _)) _ (mkWorld h2 true) _ _ eq_refl).
  rewrite (bind_step (alloc _) _ (mkWorld h2 true) l3 (mkWorld h3 true) eq_refl).
  done.
Qed.

Lemma prepare_dataset_raise (data0 : list loc) (w : world) (e : exn) :
  frame_of_heap (heap w) data0 = Raise e →
  prepare_dataset data0 w = (Raise e, mkWorld (heap w) false).
Proof.
  intros Hdf. unfold prepare_dataset.
  rewrite (bind_step RDLogger_DisableLog _ w tt (mkWorld (heap w) false) eq_refl).
  rewrite bind_unfold, build_frame_spec. simpl heap. by rewrite Hdf.
Qed.

(** X8.  [prepare_dataset] leaves the rdkit log switched on when it returns,
    whatever the switch was before; when it raises, the log is left
    switched off (nothing restores it) and the heap is as it was. *)
Theorem prepare_dataset_log_switch (data0 : list loc) (w : world) :
  let out := prepare_dataset data0 w in
  match out.1 with
  | Ok _ => rdlog out.2 = true
  | Raise _ => rdlog out.2 = false ∧ heap out.2 = heap w
  end.
Proof.
  destruct (frame_of_heap (heap w) data0) as [df|e] eqn:Hdf.
  - by rewrite (prepare_dataset_ok _ _ _ Hdf).
  - by rewrite (prepare_dataset_raise _ _ _ Hdf).
Qed.

(** X7.  [prepare_dataset] returns exactly when every sample of the sequence is
    in the heap, has a structure string that rdkit parses and a label
    tensor of exactly one element. *)
Theorem prepare_dataset_returns_iff (data0 : list loc) (w : world) :
  is_ok (prepare_dataset data0 w).1 = true
  ↔ ∀ mol, mol ∈ data0 →
      ∃ d m v, heap w !! mol = Some (OData d)
               ∧ MolFromSmiles (mol_smiles d) = Some m
               ∧ data (mol_y d) = [v].
Proof.
  assert (Hrun : is_ok (prepare_dataset data0 w).1 = is_ok (frame_of_heap (heap w) data0)).
  { destruct (frame_of_heap (heap w) data0) as [df|e] eqn:Hdf.
    - by rewrite (prepare_dataset_ok _ _ _ Hdf).
    - by rewrite (prepare_dataset_raise _ _ _ Hdf). }
  rewrite Hrun. unfold frame_of_heap. split.
  - intros Hok mol Hin.
    destruct (rmap (λ mol, rbind (get_data (heap w) mol) (λ d, Ok (mol_smiles d))) data0)
      as [smiles|] eqn:Hs; [|done]. simpl in Hok.
    destruct (rmap (λ mol, rbind (get_data (heap w) mol)
                                 (λ d, smiles2fingerprint (mol_smiles d))) data0)
      as [x|] eqn:Hx; [|done]. simpl in Hok.
    destruct (rmap (λ mol, rbind (get_data (heap w) mol) (λ d, item (mol_y d))) data0)
      as [y|] eqn:Hy; [|done].
    assert (Hx' : is_ok (rmap (λ mol, rbind (get_data (heap w) mol)
                    (λ d, smiles2fingerprint (mol_smiles d))) data0) = true)
      by by rewrite Hx.
    assert (Hy' : is_ok (rmap (λ mol, rbind (get_data (heap w) mol)
                    (λ d, item (mol_y d))) data0) = true) by by rewrite Hy.
    pose proof (proj1 (rmap_is_ok _ _) Hx' mol Hin) as Hxm.
    pose proof (proj1 (rmap_is_ok _ _) Hy' mol Hin) as Hym.
    unfold get_data in Hxm, Hym.
    destruct (heap w !! mol) as [[d| |]|]; try done. simpl in Hxm, Hym.
    unfold smiles2fingerprint in Hxm. unfold item in Hym.
    destruct (MolFromSmiles (mol_smiles d)) as [m|] eqn:Hm; [|done].
    destruct (data (mol_y d)) as [|v [|??]] eqn:Hv; try done.
    by exists d, m, v.
  - intros Hall.
    assert (Hok : ∀ (B : Type) (g : Data → result B),
              (∀ mol d m v, heap w !! mol = Some (OData d) →
                            MolFromSmiles (mol_smiles d) = Some m →
                            data (mol_y d) = [v] → is_ok (g d) = true) →
              is_ok (rmap (λ mol, rbind (get_data (heap w) mol) g) data0) = true).
    { intros B g Hg. apply rmap_is_ok. intros mol Hin.
      destruct (Hall mol Hin) as (d & m & v & Hd & Hm & Hv).
      unfold get_data. rewrite Hd. simpl. by eapply Hg. }
    pose proof (Hok _ (λ d, Ok (mol_smiles d)) (λ _ _ _ _ _ _ _, eq_refl)) as H1.
    pose proof (Hok _ (λ d, smiles2fingerprint (mol_smiles d))) as H2.
    pose proof (Hok _ (λ d, item (mol_y d))) as H3.
    destruct (rmap (λ mol, rbind (get_data (heap w) mol) (λ d, Ok (mol_smiles d))) data0);
      [|done]. simpl.
    destruct (rmap (λ mol, rbind (get_data (heap w) mol)
                                 (λ d, smiles2fingerprint (mol_smiles d))) data0).
    + simpl.
      destruct (rmap (λ mol, rbind (get_data (heap w) mol) (λ d, item (mol_y d))) data0);
        [done|].
      apply H3. intros mol d m v _ _ Hv. unfold item. by rewrite Hv.
    + apply H2. intros mol d m v _ Hm _. unfold smiles2fingerprint. by rewrite Hm.
Qed.

(** Row [i] of the table is made from sample [i]. *)
Lemma frame_rows_aligned (data0 : list loc) (w : world) (df : DataFrame)
    (i : nat) (mol : loc) :
  (build_frame data0 w).1 = Ok df →
  data0 !! i = Some mol →
  ∃ d row v, heap w !! mol = Some (OData d)
             ∧ df !! i = Some row
             ∧ df_smiles row = mol_smiles d
             ∧ smiles2fingerprint (mol_smiles d) = Ok (df_x row)
             ∧ data (mol_y d) = [v]
             ∧ df_y row = to_double v.
Proof.
  rewrite build_frame_spec. cbn [fst]. unfold frame_of_heap. intros Hdf Hi.
  destruct (rmap (λ mol, rbind (get_data (heap w) mol) (λ d, Ok (mol_smiles d))) data0)
    as [smiles|] eqn:Hs; [|done]. simpl in Hdf.
  destruct (rmap (λ mol, rbind (get_data (heap w) mol)
                               (λ d, smiles2fingerprint (mol_smiles d))) data0)
    as [x|] eqn:Hx; [|done]. simpl in Hdf.
  destruct (rmap (λ mol, rbind (get_data (heap w) mol) (λ d, item (mol_y d))) data0)
    as [y|] eqn:Hy; [|done]. simpl in Hdf. injection Hdf as Hdf. subst df.
  destruct (rmap_lookup _ _ _ _ _ Hs Hi) as (s & Hsi & Hfs).
  destruct (rmap_lookup _ _ _ _ _ Hx Hi) as (a & Hxi & Hfx).
  destruct (rmap_lookup _ _ _ _ _ Hy Hi) as (v' & Hyi & Hfy).
  unfold get_data in Hfs, Hfx, Hfy.
  destruct (heap w !! mol) as [[d| |]|]; try done. simpl in Hfs, Hfx, Hfy.
  injection Hfs as <-. unfold item in Hfy.
  destruct (data (mol_y d)) as [|v [|??]] eqn:Hv; try done. injection Hfy as <-.
  exists d, (mkRow (mol_smiles d) a (to_double v)), v.
  split; [done|]. split; [by apply make_frame_lookup|]. done.
Qed.

(** Every row of the table carries the fingerprint of its own structure
    string. *)
Lemma frame_row_fingerprint (data0 : list loc) (w : world) (df : DataFrame)
    (row : Row) :
  (build_frame data0 w).1 = Ok df → row ∈ df →
  smiles2fingerprint (df_smiles row) = Ok (df_x row).
Proof.
  intros Hdf Hrow.
  apply list_elem_of_lookup in Hrow as [i Hi].
  pose proof Hdf as Hlen. rewrite build_frame_spec in Hlen. cbn [fst] in Hlen.
  apply frame_of_heap_inv in Hlen as [Hlen _].
  destruct (lookup_lt_is_Some_2 data0 i) as [mol Hmol].
  { rewrite <- Hlen. by eapply lookup_lt_Some. }
  destruct (frame_rows_aligned data0 w df i mol Hdf Hmol)
    as (d & row' & v & _ & Hi' & Hs & Hx & _).
  assert (row' = row) as ->.
  { pose proof (eq_trans (eq_sym Hi') Hi) as E. by injection E. }
  by rewrite Hs.
Qed.

(** Corrected C1.  For a structure string that rdkit parses,
    [smiles2fingerprint] returns a vector with exactly one component per
    position of rdkit's key vector (167 positions in rdkit, not 166),
    each component 0 or 1; the vector depends on the string alone, so
    every row keyed by that string, in every table [prepare_dataset]
    builds, carries this very vector.  For a string that rdkit does not
    parse it raises. *)
Theorem smiles2fingerprint_key_vector (smiles : string) :
  (MolFromSmiles smiles = None → smiles2fingerprint smiles = Raise ArgumentError)
  ∧ ∀ mol, MolFromSmiles smiles = Some mol →
      ∃ v, smiles2fingerprint smiles = Ok v
           ∧ length v = length (GenMACCSKeys mol)
           ∧ (length (GenMACCSKeys mol) = 167 → length v = 167)
           ∧ Forall (λ b, b = 0 ∨ b = 1)%Z v
           ∧ ∀ (data0 : list loc) (w : world) (df : DataFrame) (row : Row),
               (build_frame data0 w).1 = Ok df → row ∈ df →
               df_smiles row = smiles → df_x row = v.
Proof.
  split; [apply smiles2fingerprint_unparsed|].
  intros mol Hmol.
  assert (Hv : smiles2fingerprint smiles
               = Ok (map (λ b : bool, if b then 1%Z else 0%Z) (GenMACCSKeys mol))).
  { unfold smiles2fingerprint. by rewrite Hmol, u1_sub_bits. }
  eexists. split; [exact Hv|]. split; [by rewrite length_map|].
  split; [by rewrite length_map|]. split.
  - apply Forall_forall. intros b Hb.
    apply list_elem_of_In, in_map_iff in Hb as ([] & <- & _); auto.
  - intros data0 w df row Hdf Hrow Hs.
    pose proof (frame_row_fingerprint data0 w df row Hdf Hrow) as Hx.
    rewrite Hs, Hv in Hx. by injection Hx as <-.
Qed.

(** X9.  The table [prepare_dataset] builds is aligned with the samples: row
    [i] carries the structure string of sample [i], the fingerprint of
    that string and the single element of that sample's label, widened to
    a double. *)
Theorem frame_rows_follow_samples (data0 : list loc) (w : world) (df : DataFrame)
    (i : nat) (mol : loc) :
  (build_frame data0 w).1 = Ok df →
  data0 !! i = Some mol →
  ∃ d row v, heap w !! mol = Some (OData d)
             ∧ df !! i = Some row
             ∧ df_smiles row = mol_smiles d
             ∧ smiles2fingerprint (mol_smiles d) = Ok (df_x row)
             ∧ data (mol_y d) = [v]
             ∧ df_y row = to_double v.
Proof. apply frame_rows_aligned. Qed.

(** X10.  No shuffling: each of the three frames lists rows of the table in the
    table's own order (it is a subsequence of the table). *)
Theorem partitions_keep_order (data0 : list loc) (w : world)
    (train valid tests : DataFrame) :
  frames_of (prepare_dataset data0 w) = Ok (train, valid, tests) →
  ∃ df, (build_frame data0 w).1 = Ok df
        ∧ train `sublist_of` df ∧ valid `sublist_of` df ∧ tests `sublist_of` df.
Proof.
  rewrite prepare_dataset_frames, build_frame_spec. cbn [fst].
  destruct (frame_of_heap (heap w) data0) as [df|e]; [|done].
  simpl. intros [= <- <- <-]. exists df.
  split; [done|]. repeat split; apply select_sublist.
Qed.

(** X11.  With draws that are numbers, the three frames together hold every row
    of the table except those whose draw is exactly 0.9: the sizes of the
    three frames and the number of such draws add up to the number of
    samples. *)
Theorem partition_sizes (data0 : list loc) (w : world)
    (train valid tests : DataFrame) :
  frames_of (prepare_dataset data0 w) = Ok (train, valid, tests) →
  Forall (λ u, isnan u = false) (train_split (length data0)) →
  length train + length valid + length tests
  + length (filter (λ u, eqb u f64_0_9 = true) (train_split (length data0)))
  = length data0.
Proof.
  rewrite prepare_dataset_frames.
  destruct (frame_of_heap (heap w) data0) as [df|e] eqn:Hdf; [|done].
  simpl. intros [= <- <- <-] Hnum.
  apply frame_of_heap_inv in Hdf as [Hlen _].
  set (n := length data0) in *. set (us := train_split n) in *.
  assert (Hus : length us = length df).
  { unfold us. by rewrite length_train_split. }
  assert (Hvalid : mask_valid n = map (λ u, lt u f64_0_9 && ge u f64_0_8) us).
  { unfold mask_valid, np_and, np_lt, np_ge. fold us.
    clear. induction us as [|u us IH]; [done|]. simpl. by rewrite <- IH. }
  unfold mask_train, mask_tests, np_lt, np_gt. rewrite Hvalid. fold us.
  rewrite !length_select by done.
  rewrite <- Hlen, <- Hus.
  apply (count_four_way (λ u, lt u f64_0_8) (λ u, lt u f64_0_9 && ge u f64_0_8)
                        (λ u, gt u f64_0_9) (λ u, eqb u f64_0_9)).
  eapply Forall_impl; [exact Hnum|]. intros u Hu. by apply draw_cases.
Qed.

(** X12.  The three frames are three new objects: their locations are pairwise
    distinct and were free before the call, and no other location of the
    heap is touched. *)
Theorem prepare_dataset_allocates_frames (data0 : list loc) (w w' : world)
    (df_train df_valid df_tests : loc) :
  prepare_dataset data0 w = (Ok (df_train, df_valid, df_tests), w') →
  df_train ≠ df_valid ∧ df_train ≠ df_tests ∧ df_valid ≠ df_tests
  ∧ heap w !! df_train = None ∧ heap w !! df_valid = None
  ∧ heap w !! df_tests = None
  ∧ ∀ l, l ≠ df_train → l ≠ df_valid → l ≠ df_tests →
         heap w' !! l = heap w !! l.
Proof.
  destruct (frame_of_heap (heap w) data0) as [df|e] eqn:Hdf;
    [|by rewrite (prepare_dataset_raise _ _ _ Hdf)].
  rewrite (prepare_dataset_ok _ _ _ Hdf). intros [= <- <- <- <-].
  set (l1 := fresh (dom (heap w))).
  set (h1 := <[l1 := _]> (heap w)).
  set (l2 := fresh (dom h1)).
  set (h2 := <[l2 := _]> h1).
  set (l3 := fresh (dom h2)).
  assert (H1 : heap w !! l1 = None) by apply fresh_heap_None.
  assert (H2 : h1 !! l2 = None) by apply not_elem_of_dom, is_fresh.
  assert (H3 : h2 !! l3 = None) by apply not_elem_of_dom, is_fresh.
  assert (N12 : l1 ≠ l2).
  { intros E. rewrite <- E in H2. unfold h1 in H2. by rewrite lookup_insert_eq in H2. }
  assert (N23 : l2 ≠ l3).
  { intros E. rewrite <- E in H3. unfold h2 in H3. by rewrite lookup_insert_eq in H3. }
  assert (N13 : l1 ≠ l3).
  { intros E. rewrite <- E in H3. unfold h2, h1 in H3.
    rewrite (lookup_insert_ne _ l2 l1) in H3 by (intros E'; by apply N12).
    by rewrite lookup_insert_eq in H3. }
  split; [done|]. split; [done|]. split; [done|]. split; [done|].
  split; [|split].
  - unfold h1 in H2. by rewrite (lookup_insert_ne _ l1 l2) in H2.
  - unfold h2, h1 in H3.
    by rewrite (lookup_insert_ne _ l2 l3), (lookup_insert_ne _ l1 l3) in H3.
  - intros l Hl1 Hl2 Hl3. cbn [heap]. unfold h2, h1.
    rewrite (lookup_insert_ne _ l3 l), (lookup_insert_ne _ l2 l),
            (lookup_insert_ne _ l1 l); [done|..]; by intros E'; subst.
Qed.
End prepare_more.

Lemma smiles2fingerprint_key_vector_witness :
  ∃ v df row0 row1,
    @smiles2fingerprint standin.rdkit "CCO" = Ok v
    ∧ length v = 167
    ∧ (@build_frame standin.rdkit standin.rows_data standin.rows_world).1 = Ok df
    ∧ df !! 0 = Some row0 ∧ df !! 1 = Some row1
    ∧ df_x row0 = v ∧ df_x row1 = v.
Proof.
  destruct (@smiles2fingerprint_key_vector standin.rdkit "CCO") as [_ Hkeys].
  destruct (Hkeys "CCO" eq_refl) as (v & Hv & _ & Hlen & _ & Hrows).
  exists v. eexists _, _, _. split; [exact Hv|]. split; [by apply Hlen|].
  split; [vm_compute; reflexivity|].
  split; [reflexivity|]. split; [reflexivity|].
  split.
  - eapply (Hrows standin.rows_data standin.rows_world);
      [vm_compute; reflexivity|apply list_elem_of_here|reflexivity].
  - eapply (Hrows standin.rows_data standin.rows_world);
      [vm_compute; reflexivity
      |apply list_elem_of_further, list_elem_of_here|reflexivity].
Defined.

(** C1 as stated fails: rdkit's key vector has 167 positions, and then the
    fingerprint of a string that parses has 167 components, not 166; and
    for a string that does not parse no vector is returned at all. *)
Lemma fingerprint_length_not_166 :
  (∃ v, @smiles2fingerprint standin.rdkit "CCO" = Ok v
        ∧ length v = 167 ∧ length v ≠ 166)
  ∧ @smiles2fingerprint standin.rdkit "?" = Raise ArgumentError.
Proof.
  split; [|reflexivity].
  eexists. split; [vm_compute; reflexivity|]. split; [reflexivity|].
  intros Hlen. vm_compute in Hlen. discriminate Hlen.
Qed.

Lemma frame_rows_follow_samples_witness :
  ∃ df row, (@build_frame standin.rdkit standin.rows_data standin.rows_world).1 = Ok df
            ∧ df !! 2 = Some row
            ∧ df_smiles row = "CCN"
            ∧ df_y row = f64_one.
Proof.
  eexists. 
  destruct (@frame_rows_follow_samples standin.rdkit standin.rows_data
              standin.rows_world _ 2 3%positive eq_refl eq_refl)
    as (d & row & v & Hd & Hrow & Hs & _ & Hv & Hy).
  injection Hd as <-. injection Hv as <-.
  exists row. split; [vm_compute; reflexivity|]. by split.
Defined.

Lemma partitions_keep_order_witness :
  ∃ train valid tests df,
    frames_of (@prepare_dataset standin.rdkit standin.rng
                 standin.rows_data standin.rows_world) = Ok (train, valid, tests)
    ∧ (@build_frame standin.rdkit standin.rows_data standin.rows_world).1 = Ok df
    ∧ train `sublist_of` df.
Proof.
  eexists _, _, _.
  destruct (@partitions_keep_order standin.rdkit standin.rng
              standin.rows_data standin.rows_world _ _ _ eq_refl)
    as (df & Hdf & Htr & _).
  exists df. split; [vm_compute; reflexivity|]. by split.
Defined.

Lemma partition_sizes_witness :
  ∃ train valid tests,
    frames_of (@prepare_dataset standin.rdkit standin.rng
                 standin.rows_data standin.rows_world) = Ok (train, valid, tests)
    ∧ length train + length valid + length tests + 1 = 5.
Proof.
  eexists _, _, _. split; [vm_compute; reflexivity|].
  refine (@partition_sizes standin.rdkit standin.rng
            standin.rows_data standin.rows_world _ _ _ eq_refl _).
  repeat (apply Forall_cons; split; [reflexivity|]). apply Forall_nil_2.
Defined.

Lemma prepare_dataset_allocates_frames_witness :
  ∃ w', @prepare_dataset standin.rdkit standin.rng
          standin.rows_data standin.rows_world
        = (Ok (6%positive, 7%positive, 8%positive), w')
      ∧ heap standin.rows_world !! 6%positive = None
      ∧ heap w' !! 1%positive = heap standin.rows_world !! 1%positive.
Proof.
  eexists. split; [vm_compute; reflexivity|].
  destruct (@prepare_dataset_allocates_frames standin.rdkit standin.rng
              standin.rows_data standin.rows_world _ _ _ _ eq_refl)
    as (_ & _ & _ & Hfree & _ & _ & Hrest).
  split; [exact Hfree|]. by apply Hrest.
Defined.

(** ** Metrics, training and the run *)

Lemma np_stack_cases {A} (arrays : list (list A)) :
  np_stack arrays = Ok arrays
  ∨ (np_stack arrays = Raise ValueError
     ∧ (arrays = []
        ∨ ∃ a b, head arrays = Some a ∧ b ∈ arrays ∧ length b ≠ length a)).
Proof.
  destruct arrays as [|a rest]; [right; by split; [|left]|].
  simpl. destruct (forallb _ rest) eqn:Hall; [by left|].
  right. split; [done|]. right.
  apply not_true_iff_false in Hall. rewrite forallb_forall in Hall.
  exists a. 
  assert (Hex : ∃ b, b ∈ rest ∧ length b ≠ length a).
  { clear -Hall. induction rest as [|b rest IH].
    - exfalso. apply Hall. by intros ? [].
    - destruct (decide (length b = length a)) as [Heq|Hne].
      + destruct IH as (b' & Hb' & Hlen).
        * intros Hrest. apply Hall. intros x [<-|Hx]; [by apply Nat.eqb_eq|].
          by apply Hrest.
        * exists b'. split; [by right|done].
      + exists b. split; [by left|done]. }
  destruct Hex as (b & Hb & Hlen). exists b. split; [done|]. split; [by right|done].
Qed.

(** X13.  On an empty frame, or on one whose feature arrays are not all of one
    length, [compute_metrics] raises [ValueError] from [np.stack], before
    the model is asked for anything and whatever the threshold; the world
    is left as it was. *)
Theorem compute_metrics_needs_rows (model df : loc) (m : CatBoostModel)
    (rows : DataFrame) (thr : float) (w : world) :
  heap w !! model = Some (OModel m) →
  heap w !! df = Some (OFrame rows) →
  rows = [] ∨ (∃ r1 r2, r1 ∈ rows ∧ r2 ∈ rows ∧ length (df_x r1) ≠ length (df_x r2)) →
  compute_metrics model df thr w = (Raise ValueError, w).
Proof.
  intros Hm Hdf Hbad. unfold compute_metrics.
  rewrite (bind_step _ _ _ _ _ (read_model_ok _ _ _ Hm)).
  rewrite (bind_step _ _ _ _ _ (read_frame_ok _ _ _ Hdf)).
  assert (Hstack : np_stack (map df_x rows) = Raise ValueError).
  { destruct Hbad as [->|(r1 & r2 & H1 & H2 & Hne)]; [done|].
    destruct rows as [|r0 rows]; [by apply elem_of_nil in H1|].
    simpl. destruct (forallb _ (map df_x rows)) eqn:Hall; [|done].
    exfalso. rewrite forallb_forall in Hall.
    assert (Hlen : ∀ r, r ∈ r0 :: rows → length (df_x r) = length (df_x r0)).
    { intros r [->|Hr]%elem_of_cons; [done|].
      apply Nat.eqb_eq, Hall, in_map, list_elem_of_In, Hr. }
    apply Hne. by rewrite (Hlen r1), (Hlen r2). }
  by rewrite Hstack.
Qed.

Lemma compute_metrics_needs_rows_witness :
  compute_metrics 1%positive 2%positive f64_0_5 fixtures.metrics_world
  = (Raise ValueError, fixtures.metrics_world)
  ∧ compute_metrics 1%positive 3%positive f64_0_5 fixtures.metrics_world
    = (Raise ValueError, fixtures.metrics_world).
Proof.
  split.
  - apply (compute_metrics_needs_rows 1%positive 2%positive standin.toy_model []);
      [reflexivity|reflexivity|by left].
  - apply (compute_metrics_needs_rows 1%positive 3%positive standin.toy_model
             fixtures.ragged_frame); [reflexivity|reflexivity|].
    right. exists (mkRow "C" [0%Z] f64_one), (mkRow "N" [0%Z; 1%Z] f64_zero).
    split; [by left|]. split; [by right; left|done].
Defined.

Section run_facts.
Context `{RDKit} `{NumpyRandom} `{CatBoost}.

Lemma train_inv (df_train df_valid model : loc) (w w' : world) :
  train df_train df_valid w = (Ok model, w') →
  ∃ tr va weights m,
    heap w !! df_train = Some (OFrame tr)
    ∧ heap w !! df_valid = Some (OFrame va)
    ∧ tr ≠ []
    ∧ class_weights (map df_y tr) = Ok weights
    ∧ fit weights (map df_x tr) (map df_y tr) (map df_x va, map df_y va) = Ok m
    ∧ heap w !! model = None
    ∧ w' = mkWorld (<[model := OModel m]> (heap w)) (rdlog w).
Proof.
  unfold train. intros Hrun.
  apply bind_ok_inv in Hrun as (tr & w1 & Htr & Hrun).
  pose proof (read_only_read_frame df_train w) as Hw1. rewrite Htr in Hw1.
  simpl in Hw1. subst w1.
  apply bind_ok_inv in Hrun as (weights & w1 & Hwt & Hrun).
  injection Hwt as Hwt <-.
  apply bind_ok_inv in Hrun as (X & w1 & HX & Hrun). injection HX as HX <-.
  apply bind_ok_inv in Hrun as (y & w1 & Hy & Hrun). injection Hy as Hy <-.
  apply bind_ok_inv in Hrun as (va & w1 & Hva & Hrun).
  pose proof (read_only_read_frame df_valid w) as Hw1. rewrite Hva in Hw1.
  simpl in Hw1. subst w1.
  apply bind_ok_inv in Hrun as (m & w1 & Hm & Hrun). injection Hm as Hm <-.
  injection Hrun as <- <-.
  unfold read_frame in Htr, Hva.
  destruct (heap w !! df_train) as [[|tr'|]|] eqn:Htr'; try done.
  destruct (heap w !! df_valid) as [[|va'|]|] eqn:Hva'; try done.
  injection Htr as <-. injection Hva as <-.
  assert (Hne : tr' ≠ []) by (intros ->; done).
  assert (X = map df_x tr') as ->.
  { destruct (np_stack_cases (map df_x tr')) as [Hok|[Hbad _]]; congruence. }
  assert (y = map df_y tr') as ->.
  { unfold np_stack_scalars in Hy. destruct (map df_y tr'); congruence. }
  exists tr', va', weights, m.
  repeat split; try done. apply fresh_heap_None.
Qed.
(** X14.  When the training cell returns, the model it stores is the one the
    library fitted with the class weights of the training labels, on the
    training features and labels, with the validation columns as the
    evaluation set; it is stored at a location that was free, and the two
    frames and every other object are unchanged. *)
Theorem train_returns (df_train df_valid model : loc) (w w' : world) :
  train df_train df_valid w = (Ok model, w') →
  ∃ tr va weights m,
    heap w !! df_train = Some (OFrame tr)
    ∧ heap w !! df_valid = Some (OFrame va)
    ∧ tr ≠ []
    ∧ class_weights (map df_y tr) = Ok weights
    ∧ fit weights (map df_x tr) (map df_y tr) (map df_x va, map df_y va) = Ok m
    ∧ heap w !! model = None
    ∧ w' = mkWorld (<[model := OModel m]> (heap w)) (rdlog w).
Proof. apply train_inv. Qed.

Lemma compute_metrics_empty (model df : loc) (thr : float) (w : world) :
  heap w !! df = Some (OFrame []) →
  is_ok (compute_metrics model df thr w).1 = false.
Proof.
  intros Hdf. unfold compute_metrics. rewrite bind_unfold.
  unfold read_model at 1. destruct (heap w !! model) as [[| |m]|]; try done.
  by rewrite (bind_step _ _ _ _ _ (read_frame_ok _ _ _ Hdf)).
Qed.

(** X15.  The run over one dataset cannot complete when one of the three
    partitions is empty: an empty training frame stops the training cell,
    and an empty validation or test frame stops its metric table. *)
Theorem run_needs_three_partitions (data0 : list loc) (w : world)
    (rows_train rows_valid rows_tests : DataFrame) :
  frames_of (prepare_dataset data0 w) = Ok (rows_train, rows_valid, rows_tests) →
  rows_train = [] ∨ rows_valid = [] ∨ rows_tests = [] →
  is_ok (run_dataset data0 w).1 = false.
Proof.
  intros Hfr Hempty. unfold run_dataset. rewrite bind_unfold.
  destruct (prepare_dataset data0 w) as [[[[l1 l2] l3]|e] w1] eqn:Hp; [|done].
  cbn [frames_of] in Hfr. unfold get_frame in Hfr.
  destruct (heap w1 !! l1) as [[|tr|]|] eqn:Hl1; try done.
  destruct (heap w1 !! l2) as [[|va|]|] eqn:Hl2; try done.
  destruct (heap w1 !! l3) as [[|te|]|] eqn:Hl3; try done.
  cbn [rbind] in Hfr. injection Hfr as -> -> ->.
  rewrite bind_unfold.
  destruct (train l1 l2 w1) as [[model|e] w2] eqn:Ht; [|done].
  destruct (train_inv _ _ _ _ _ Ht)
    as (tr' & va' & weights & m & Htr' & _ & Hne & _ & _ & Hfree & ->).
  assert (Hnew : ∀ l o, heap w1 !! l = Some o →
            heap (mkWorld (<[model := OModel m]> (heap w1)) (rdlog w1)) !! l = Some o).
  { intros l o Hl. cbn [heap]. rewrite lookup_insert_ne; [done|].
    intros <-. congruence. }
  set (w2 := mkWorld _ _) in *.
  destruct Hempty as [->|Hempty]; [congruence|].
  rewrite bind_unfold.
  destruct (compute_metrics model l1 threshold w2) as [[m1|e] w3] eqn:Hm1; [|done].
  pose proof (read_only_compute_metrics model l1 threshold w2) as E.
  rewrite Hm1 in E. simpl in E. subst w3.
  rewrite bind_unfold.
  destruct (compute_metrics model l2 threshold w2) as [[m2|e] w3] eqn:Hm2; [|done].
  pose proof (read_only_compute_metrics model l2 threshold w2) as E.
  rewrite Hm2 in E. simpl in E. subst w3.
  destruct Hempty as [->| ->].
  - pose proof (compute_metrics_empty model l2 threshold w2 (Hnew _ _ Hl2)) as Hbad.
    by rewrite Hm2 in Hbad.
  - rewrite bind_unfold.
    destruct (compute_metrics model l3 threshold w2) as [[m3|e] w3] eqn:Hm3; [|done].
    pose proof (compute_metrics_empty model l3 threshold w2 (Hnew _ _ Hl3)) as Hbad.
    by rewrite Hm3 in Hbad.
Qed.
End run_facts.

Lemma train_returns_witness :
  ∃ w' m, @train standin.catboost 1%positive 2%positive standin.two_class_world
          = (Ok 3%positive, w')
        ∧ heap standin.two_class_world !! 3%positive = None
        ∧ heap w' !! 3%positive = Some (OModel m).
Proof.
  eexists.
  destruct (@train_returns standin.catboost 1%positive 2%positive 3%positive
              standin.two_class_world _ eq_refl)
    as (tr & va & weights & m & _ & _ & _ & _ & _ & Hfree & Hw').
  exists m. split; [reflexivity|]. split; [exact Hfree|].
  rewrite Hw'. apply lookup_insert_eq.
Defined.

Lemma run_needs_three_partitions_witness :
  ∃ train valid,
    frames_of (@prepare_dataset standin.rdkit standin.rng
                 fixtures.small_data fixtures.small_world) = Ok (train, valid, [])
    ∧ is_ok (@run_dataset standin.rdkit standin.rng standin.catboost
               fixtures.small_data fixtures.small_world).1 = false.
Proof.
  eexists _, _. split; [vm_compute; reflexivity|].
  refine (@run_needs_three_partitions standin.rdkit standin.rng standin.catboost
            fixtures.small_data fixtures.small_world _ _ _ eq_refl _).
  right. by right.
Defined.
